(** * Form cleaners of the law-office manager: input validation and normalisation

    A shallow embedding of the [clean_*] methods of the Django forms in
    [clientes/forms.py], [core/forms.py], [financeiro/forms.py],
    [documentos/forms.py] and [agenda/forms.py], together with the
    properties the specification states about them.

    Conventions of the embedding.
    - A Python [str] is a list of characters; characters are the code
      points below 256 ([ascii]).  In that range the regular-expression
      class [\d] is exactly ['0'..'9'], while [str.isdigit] also holds
      for the superscripts U+00B2, U+00B3 and U+00B9.
    - [raise ValidationError(msg)] is the outcome [Invalid msg]; any other
      Python exception (an [IndexError] of [s[i]], a [ValueError] of
      [int(c)]) is the outcome [Crash].
    - [Decimal] values are rationals; model instances are compared by
      primary key, as [django.db.models.Model.__eq__] does. *)

From Stdlib Require Import Strings.String Strings.Ascii.
From Stdlib Require Import List Bool Arith ZArith QArith Lia.
Import ListNotations.
Close Scope Q_scope.

(* ================================================================== *)
(** ** Python values and control flow *)

Module Py.

(** A string within the code points below 256.  Digits of other
    scripts, which [re] and [int] also take as decimal digits, are
    outside this type: what is proved of digits is stated on their
    values wherever two different characters could stand for one. *)
Definition str := list ascii.

(** A string literal. *)
Definition lit (s : string) : str := list_ascii_of_string s.

Definition len (s : str) : nat := List.length s.

(** [bool(s)] for a string: the empty string is falsy. *)
Definition truthy (s : str) : bool :=
  match s with [] => false | _ :: _ => true end.

Definition chr_eqb (a b : ascii) : bool := Ascii.eqb a b.

(** [s == t] on strings. *)
Fixpoint str_eqb (s t : str) : bool :=
  match s, t with
  | [], [] => true
  | a :: s', b :: t' => chr_eqb a b && str_eqb s' t'
  | _, _ => false
  end.

(** [c * n] for a one-character string [c]. *)
Definition str_mul (c : ascii) (n : nat) : str := repeat c n.

(** [s[a:b]], [s[:b]] and [s[a:]] with non-negative bounds. *)
Definition slice (a b : nat) (s : str) : str := firstn (b - a) (skipn a s).
Definition slice_to (b : nat) (s : str) : str := firstn b s.
Definition slice_from (a : nat) (s : str) : str := skipn a s.

(** The class [\d] of [re] on code points below 256. *)
Definition is_decimal (c : ascii) : bool :=
  (48 <=? nat_of_ascii c) && (nat_of_ascii c <=? 57).

(** [str.isdigit] on code points below 256. *)
Definition str_isdigit (c : ascii) : bool :=
  is_decimal c
  || (nat_of_ascii c =? 178) || (nat_of_ascii c =? 179)
  || (nat_of_ascii c =? 185).

(** [re.sub(r'\D', '', s)]. *)
Definition re_sub_nondigit (s : str) : str := filter is_decimal s.

(** [''.join(filter(str.isdigit, s))]. *)
Definition join_filter_isdigit (s : str) : str := filter str_isdigit s.

(** [len(set(s))]: the number of distinct characters of [s]. *)
Definition len_set (s : str) : nat := List.length (nodup ascii_dec s).

Inductive exn : Type := IndexError | ValueError.

(** The result of running a cleaner whose validation messages are [M]. *)
Inductive outcome (M A : Type) : Type :=
| Ret (a : A)
| Invalid (m : M)
| Crash (x : exn).

Arguments Ret {M A} a.
Arguments Invalid {M A} m.
Arguments Crash {M A} x.

Definition bind {M A B} (o : outcome M A) (k : A -> outcome M B)
  : outcome M B :=
  match o with
  | Ret a => k a
  | Invalid m => Invalid m
  | Crash x => Crash x
  end.

(** [s[i]] for [0 <= i]. *)
Definition getitem {M} (s : str) (i : nat) : outcome M ascii :=
  match nth_error s i with
  | Some c => Ret c
  | None => Crash IndexError
  end.

(** [int(c)] for a one-character string. *)
Definition int {M} (c : ascii) : outcome M Z :=
  if is_decimal c then Ret (Z.of_nat (nat_of_ascii c) - 48)%Z
  else Crash ValueError.

(** [sum(f(i) for i in idx)], accumulated from the left. *)
Fixpoint sum_from {M} (f : nat -> outcome M Z) (idx : list nat) (acc : Z)
  : outcome M Z :=
  match idx with
  | [] => Ret acc
  | i :: rest => bind (f i) (fun x => sum_from f rest (acc + x)%Z)
  end.

Definition sum {M} (f : nat -> outcome M Z) (idx : list nat)
  : outcome M Z := sum_from f idx 0%Z.

(** [range(n)]. *)
Definition range (n : nat) : list nat := seq 0 n.

(** [ws[i]] on a list of integers. *)
Definition getitem_Z {M} (ws : list Z) (i : nat) : outcome M Z :=
  match nth_error ws i with
  | Some w => Ret w
  | None => Crash IndexError
  end.

End Py.

Import Py.

Declare Scope py_scope.
Delimit Scope py_scope with py.
Notation "x <- c ;; k" := (bind c (fun x => k))
  (at level 61, c at next level, right associativity) : py_scope.
Open Scope py_scope.

(* ================================================================== *)
(** ** clientes/models.py, processos/models.py *)

Module Models.

(** A stored client: its primary key and its [cpf_cnpj] column. *)
Record Cliente : Type := { cliente_pk : Z; cpf_cnpj : str }.

(** A stored case; [cliente] is its non-null foreign key. *)
Record Processo : Type := { processo_pk : Z; cliente : Cliente }.

(** [a != b] on stored clients: [Model.__eq__] compares primary keys. *)
Definition cliente_ne (a b : Cliente) : bool :=
  negb (cliente_pk a =? cliente_pk b)%Z.

(** [bool(x)] for an optional model instance or date: only [None] is
    falsy. *)
Definition present {A} (x : option A) : bool :=
  match x with Some _ => true | None => false end.

(** One element of the pattern of a [RegexValidator]. *)
Inductive atom : Type :=
| Digit               (* \d *)
| Chr (c : ascii).    (* a literal character *)

(** Matches [p] at the start of [s]; returns what follows the match. *)
Fixpoint match_atoms (p : list atom) (s : str) : option str :=
  match p, s with
  | [], _ => Some s
  | Digit :: p', c :: s' =>
      if is_decimal c then match_atoms p' s' else None
  | Chr a :: p', c :: s' =>
      if chr_eqb a c then match_atoms p' s' else None
  | _ :: _, [] => None
  end.

(** [$]: the end of the string, or a final newline. *)
Definition at_end (s : str) : bool :=
  match s with
  | [] => true
  | [c] => chr_eqb c "010"%char
  | _ => false
  end.

(** [^p$] searched in [s]. *)
Definition anchored (p : list atom) (s : str) : bool :=
  match match_atoms p s with
  | Some rest => at_end rest
  | None => false
  end.

(** [^\d{3}\.\d{3}\.\d{3}-\d{2}$] *)
Definition cpf_pattern : list atom :=
  [Digit; Digit; Digit; Chr "."; Digit; Digit; Digit; Chr ".";
   Digit; Digit; Digit; Chr "-"; Digit; Digit].

(** [^\d{2}\.\d{3}\.\d{3}/\d{4}-\d{2}$] *)
Definition cnpj_pattern : list atom :=
  [Digit; Digit; Chr "."; Digit; Digit; Digit; Chr ".";
   Digit; Digit; Digit; Chr "/"; Digit; Digit; Digit; Digit; Chr "-";
   Digit; Digit].

(** The [RegexValidator] of the column [Cliente.cpf_cnpj]: [true] when
    the value passes. *)
Definition cpf_cnpj_validator (value : str) : bool :=
  anchored cpf_pattern value || anchored cnpj_pattern value.

End Models.

Import Models.

(* ================================================================== *)
(** ** clientes/forms.py *)

Module ClienteForm.

(** The messages of the [ValidationError]s raised by the cleaners. *)
Inductive Msg : Type :=
| CPF_invalido            (* 'CPF inválido.' *)
| CNPJ_invalido           (* 'CNPJ inválido.' *)
| Tamanho_cpf_cnpj        (* 'CPF deve ter 11 dígitos ou CNPJ deve ter 14 dígitos.' *)
| Cpf_cnpj_ja_cadastrado  (* 'Já existe um cliente cadastrado com este CPF/CNPJ.' *)
| Telefone_curto          (* 'Telefone deve ter pelo menos 10 dígitos.' *)
| Telefone_tamanho.       (* 'Telefone deve ter 10 ou 11 dígitos.' *)

Definition result := outcome Msg.

(** [int(s[i])]. *)
Definition int_at (s : str) (i : nat) : result Z :=
  c <- getitem s i ;; int c.

(** [0 if resto < 2 else 11 - resto]. *)
Definition digito (resto : Z) : Z :=
  if (resto <? 2)%Z then 0%Z else (11 - resto)%Z.

(** [s == s[0] * n]. *)
Definition eq_first_times (s : str) (n : nat) : result bool :=
  c <- getitem s 0 ;; Ret (str_eqb s (str_mul c n)).

(** [_validar_cpf]. *)
Definition _validar_cpf (cpf : str) : result bool :=
  trivial <- (if negb (len cpf =? 11) then Ret true
              else eq_first_times cpf 11) ;;
  if trivial then Ret false else
  soma <- sum (fun i => d <- int_at cpf i ;;
                        Ret (d * (10 - Z.of_nat i))%Z) (range 9) ;;
  let resto := (soma mod 11)%Z in
  let digito1 := digito resto in
  d9 <- int_at cpf 9 ;;
  if negb (d9 =? digito1)%Z then Ret false else
  soma <- sum (fun i => d <- int_at cpf i ;;
                        Ret (d * (11 - Z.of_nat i))%Z) (range 10) ;;
  let resto := (soma mod 11)%Z in
  let digito2 := digito resto in
  d10 <- int_at cpf 10 ;;
  Ret (d10 =? digito2)%Z.

Definition pesos1 : list Z := [5; 4; 3; 2; 9; 8; 7; 6; 5; 4; 3; 2]%Z.
Definition pesos2 : list Z := [6; 5; 4; 3; 2; 9; 8; 7; 6; 5; 4; 3; 2]%Z.

(** [_validar_cnpj]. *)
Definition _validar_cnpj (cnpj : str) : result bool :=
  trivial <- (if negb (len cnpj =? 14) then Ret true
              else eq_first_times cnpj 14) ;;
  if trivial then Ret false else
  soma <- sum (fun i => d <- int_at cnpj i ;;
                        w <- getitem_Z pesos1 i ;;
                        Ret (d * w)%Z) (range 12) ;;
  let resto := (soma mod 11)%Z in
  let digito1 := digito resto in
  d12 <- int_at cnpj 12 ;;
  if negb (d12 =? digito1)%Z then Ret false else
  soma <- sum (fun i => d <- int_at cnpj i ;;
                        w <- getitem_Z pesos2 i ;;
                        Ret (d * w)%Z) (range 13) ;;
  let resto := (soma mod 11)%Z in
  let digito2 := digito resto in
  d13 <- int_at cnpj 13 ;;
  Ret (d13 =? digito2)%Z.

(** [Cliente.objects.filter(cpf_cnpj=v)] and
    [Cliente.objects.filter(cpf_cnpj=v).exclude(pk=p)], asked
    [.exists()]. *)
Definition filter_exists (db : list Cliente) (v : str) : bool :=
  existsb (fun c => str_eqb (Models.cpf_cnpj c) v) db.

Definition filter_exclude_exists (db : list Cliente) (v : str) (p : Z)
  : bool :=
  existsb (fun c => str_eqb (Models.cpf_cnpj c) v
                    && negb (cliente_pk c =? p)%Z) db.

(** [bool(self.instance.pk)]: [None] and 0 are falsy. *)
Definition pk_truthy (instance_pk : option Z) : bool :=
  match instance_pk with
  | Some p => negb (p =? 0)%Z
  | None => false
  end.

(** The query [existing.exists()] of [clean_cpf_cnpj]. *)
Definition existing (db : list Cliente) (instance_pk : option Z) (v : str)
  : bool :=
  match instance_pk with
  | Some p =>
      if pk_truthy instance_pk then filter_exclude_exists db v p
      else filter_exists db v
  | None => filter_exists db v
  end.

(** [clean_cpf_cnpj], for the field value [cpf_cnpj], the stored
    clients [db] and the primary key of the edited instance. *)
Definition clean_cpf_cnpj (db : list Cliente) (instance_pk : option Z)
           (cpf_cnpj : str) : result str :=
  if truthy cpf_cnpj then
    let cpf_cnpj := re_sub_nondigit cpf_cnpj in
    _ <- (if len cpf_cnpj =? 11 then
            ok <- _validar_cpf cpf_cnpj ;;
            if negb ok then Invalid CPF_invalido else Ret tt
          else if len cpf_cnpj =? 14 then
            ok <- _validar_cnpj cpf_cnpj ;;
            if negb ok then Invalid CNPJ_invalido else Ret tt
          else Invalid Tamanho_cpf_cnpj) ;;
    if existing db instance_pk cpf_cnpj
    then Invalid Cpf_cnpj_ja_cadastrado
    else Ret cpf_cnpj
  else Ret cpf_cnpj.

(** [clean_telefone]. *)
Definition clean_telefone (telefone : str) : result str :=
  if truthy telefone then
    let telefone_numerico := re_sub_nondigit telefone in
    if len telefone_numerico <? 10 then Invalid Telefone_curto
    else if len telefone_numerico =? 10 then
      Ret (lit "(" ++ slice_to 2 telefone_numerico ++ lit ") "
           ++ slice 2 6 telefone_numerico ++ lit "-"
           ++ slice_from 6 telefone_numerico)
    else if len telefone_numerico =? 11 then
      Ret (lit "(" ++ slice_to 2 telefone_numerico ++ lit ") "
           ++ slice 2 7 telefone_numerico ++ lit "-"
           ++ slice_from 7 telefone_numerico)
    else Invalid Telefone_tamanho
  else Ret telefone.

End ClienteForm.

(* ================================================================== *)
(** ** core/forms.py *)

Module ConfiguracaoForm.

Inductive Msg : Type :=
| Cnpj_14_digitos   (* 'CNPJ deve ter 14 dígitos.' *)
| Cnpj_invalido     (* 'CNPJ inválido.' *)
| Telefone_curto.   (* 'Telefone deve ter pelo menos 10 dígitos.' *)

Definition result := outcome Msg.

(** [clean_cnpj]. *)
Definition clean_cnpj (cnpj : str) : result str :=
  if truthy cnpj then
    let cnpj_limpo := join_filter_isdigit cnpj in
    if negb (len cnpj_limpo =? 14) then Invalid Cnpj_14_digitos
    else if len_set cnpj_limpo =? 1 then Invalid Cnpj_invalido
    else
      let cnpj_formatado :=
        slice_to 2 cnpj_limpo ++ lit "." ++ slice 2 5 cnpj_limpo
        ++ lit "." ++ slice 5 8 cnpj_limpo ++ lit "/"
        ++ slice 8 12 cnpj_limpo ++ lit "-" ++ slice_from 12 cnpj_limpo in
      Ret cnpj_formatado
  else Ret cnpj.

(** [clean_telefone]. *)
Definition clean_telefone (telefone : str) : result str :=
  if truthy telefone then
    let telefone_limpo := join_filter_isdigit telefone in
    if len telefone_limpo <? 10 then Invalid Telefone_curto
    else
      let telefone_formatado :=
        if len telefone_limpo =? 10 then
          lit "(" ++ slice_to 2 telefone_limpo ++ lit ") "
          ++ slice 2 6 telefone_limpo ++ lit "-"
          ++ slice_from 6 telefone_limpo
        else if len telefone_limpo =? 11 then
          lit "(" ++ slice_to 2 telefone_limpo ++ lit ") "
          ++ slice 2 7 telefone_limpo ++ lit "-"
          ++ slice_from 7 telefone_limpo
        else telefone in
      Ret telefone_formatado
  else Ret telefone.

End ConfiguracaoForm.

Module PerfilUsuarioForm.

Inductive Msg : Type :=
| Telefone_curto.   (* 'Telefone deve ter pelo menos 10 dígitos.' *)

Definition result := outcome Msg.

(** [clean_telefone]. *)
Definition clean_telefone (telefone : str) : result str :=
  if truthy telefone then
    let telefone_limpo := join_filter_isdigit telefone in
    if len telefone_limpo <? 10 then Invalid Telefone_curto
    else
      let telefone_formatado :=
        if len telefone_limpo =? 10 then
          lit "(" ++ slice_to 2 telefone_limpo ++ lit ") "
          ++ slice 2 6 telefone_limpo ++ lit "-"
          ++ slice_from 6 telefone_limpo
        else if len telefone_limpo =? 11 then
          lit "(" ++ slice_to 2 telefone_limpo ++ lit ") "
          ++ slice 2 7 telefone_limpo ++ lit "-"
          ++ slice_from 7 telefone_limpo
        else telefone in
      Ret telefone_formatado
  else Ret telefone.

End PerfilUsuarioForm.

(* ================================================================== *)
(** ** financeiro/forms.py *)

(** [Decimal('999999999.99')]. *)
Definition valor_maximo : Q := 99999999999 # 100.

(** A [datetime.date], by its ordinal. *)
Definition date := Z.

Module FinanceiroForm.

Inductive Msg : Type :=
| Valor_maior_que_zero        (* 'O valor deve ser maior que zero.' *)
| Valor_muito_alto            (* 'O valor é muito alto.' *)
| Data_pagamento_obrigatoria  (* 'Data de pagamento é obrigatória quando o status é Pago.' *)
| Status_deve_ser_pago        (* 'Status deve ser Pago quando a data de pagamento é informada.' *)
| Processo_ou_cliente         (* 'É necessário informar pelo menos um processo ou cliente para a movimentação.' *)
| Cliente_nao_corresponde.    (* 'O cliente selecionado não corresponde ao cliente do processo.' *)

Definition result := outcome Msg.

(** [clean_valor]; [None] is an absent value. *)
Definition clean_valor (valor : option Q) : result (option Q) :=
  match valor with
  | Some v =>
      if Qle_bool v 0 then Invalid Valor_maior_que_zero
      else if negb (Qle_bool v valor_maximo) then Invalid Valor_muito_alto
      else Ret valor
  | None => Ret valor
  end.

(** The entries of [cleaned_data] that [clean] reads. *)
Record cleaned_data : Type := {
  status : option str;
  data_pagamento : option date;
  processo : option Processo;
  cliente : option Cliente
}.

(** [status == 'pago']. *)
Definition is_pago (status : option str) : bool :=
  match status with
  | Some s => str_eqb s (lit "pago")
  | None => false
  end.

(** [clean]. *)
Definition clean (cd : cleaned_data) : result cleaned_data :=
  if is_pago (status cd) && negb (present (data_pagamento cd))
  then Invalid Data_pagamento_obrigatoria
  else if present (data_pagamento cd) && negb (is_pago (status cd))
  then Invalid Status_deve_ser_pago
  else if negb (present (processo cd)) && negb (present (cliente cd))
  then Invalid Processo_ou_cliente
  else
    match processo cd, cliente cd with
    | Some p, Some c =>
        if cliente_ne (Models.cliente p) c
        then Invalid Cliente_nao_corresponde
        else Ret cd
    | _, _ => Ret cd
    end.

End FinanceiroForm.

Module OrcamentoForm.

Inductive Msg : Type :=
| Valor_total_maior_que_zero  (* 'O valor total deve ser maior que zero.' *)
| Valor_total_muito_alto.     (* 'O valor total é muito alto.' *)

Definition result := outcome Msg.

(** [clean_valor_total]. *)
Definition clean_valor_total (valor : option Q) : result (option Q) :=
  match valor with
  | Some v =>
      if Qle_bool v 0 then Invalid Valor_total_maior_que_zero
      else if negb (Qle_bool v valor_maximo)
      then Invalid Valor_total_muito_alto
      else Ret valor
  | None => Ret valor
  end.

End OrcamentoForm.

(* ================================================================== *)
(** ** documentos/forms.py and agenda/forms.py *)

Module DocumentoForm.

Inductive Msg : Type :=
| Processo_ou_cliente       (* 'É necessário informar pelo menos um processo ou cliente para o documento.' *)
| Cliente_nao_corresponde.  (* 'O cliente selecionado não corresponde ao cliente do processo.' *)

Definition result := outcome Msg.

(** The entries of [cleaned_data] that [clean] reads. *)
Record cleaned_data : Type := {
  processo : option Processo;
  cliente : option Cliente
}.

(** [clean]. *)
Definition clean (cd : cleaned_data) : result cleaned_data :=
  if negb (present (processo cd)) && negb (present (cliente cd))
  then Invalid Processo_ou_cliente
  else
    match processo cd, cliente cd with
    | Some p, Some c =>
        if cliente_ne (Models.cliente p) c
        then Invalid Cliente_nao_corresponde
        else Ret cd
    | _, _ => Ret cd
    end.

End DocumentoForm.

Module AgendaForm.

Inductive Msg : Type :=
| Processo_ou_cliente       (* 'É necessário informar pelo menos um processo ou cliente para o compromisso.' *)
| Cliente_nao_corresponde.  (* 'O cliente selecionado não corresponde ao cliente do processo.' *)

Definition result := outcome Msg.

(** The entries of [cleaned_data] that [clean] reads. *)
Record cleaned_data : Type := {
  processo : option Processo;
  cliente : option Cliente
}.

(** [clean]. *)
Definition clean (cd : cleaned_data) : result cleaned_data :=
  if negb (present (processo cd)) && negb (present (cliente cd))
  then Invalid Processo_ou_cliente
  else
    match processo cd, cliente cd with
    | Some p, Some c =>
        if cliente_ne (Models.cliente p) c
        then Invalid Cliente_nao_corresponde
        else Ret cd
    | _, _ => Ret cd
    end.

End AgendaForm.

(* ================================================================== *)
(** ** The validators as the specification names them *)

(** The tax-id validator: [clean_cpf_cnpj] with no stored client, the
    uniqueness check being the caller's business. *)
Definition validate_tax_id (raw : str) : ClienteForm.result str :=
  ClienteForm.clean_cpf_cnpj [] None raw.

(** The validator returns a value. *)
Definition accepted (raw : str) : Prop :=
  exists v, validate_tax_id raw = Ret v.

Module Spec.

(** The value of a decimal digit character. *)
Definition digit_value (c : ascii) : Z := (Z.of_nat (nat_of_ascii c) - 48)%Z.

Definition digits (d : str) : list Z := map digit_value d.

(** The sum of [d[i] * w[i]] over the positions of the weight vector. *)
Fixpoint weighted_sum (ws ds : list Z) : Z :=
  match ws, ds with
  | w :: ws', x :: ds' => (x * w + weighted_sum ws' ds')%Z
  | _, _ => 0%Z
  end.

(** 0 if the remainder modulo 11 is less than 2, else 11 minus it. *)
Definition check_digit (ws ds : list Z) : Z :=
  let r := (weighted_sum ws ds mod 11)%Z in
  if (r <? 2)%Z then 0%Z else (11 - r)%Z.

(** Weights [10 - i] for [i = 0..8] and [11 - i] for [i = 0..9]. *)
Definition cpf_weights1 : list Z := map (fun i => (10 - Z.of_nat i)%Z) (seq 0 9).
Definition cpf_weights2 : list Z := map (fun i => (11 - Z.of_nat i)%Z) (seq 0 10).

Definition cnpj_weights1 : list Z := [5; 4; 3; 2; 9; 8; 7; 6; 5; 4; 3; 2]%Z.
Definition cnpj_weights2 : list Z := [6; 5; 4; 3; 2; 9; 8; 7; 6; 5; 4; 3; 2]%Z.

(** [d[i]], counted from 0. *)
Definition digit_at (ds : list Z) (i : nat) : Z := nth i ds (-1)%Z.

Definition cpf_check_digits_ok (ds : list Z) : Prop :=
  digit_at ds 9 = check_digit cpf_weights1 ds
  /\ digit_at ds 10 = check_digit cpf_weights2 ds.

Definition cnpj_check_digits_ok (ds : list Z) : Prop :=
  digit_at ds 12 = check_digit cnpj_weights1 ds
  /\ digit_at ds 13 = check_digit cnpj_weights2 ds.

(** One character repeated. *)
Definition single_repeated (d : str) : Prop :=
  exists c, d = repeat c (List.length d).

(** At least two distinct characters. *)
Definition two_distinct (d : str) : Prop :=
  exists a b, In a d /\ In b d /\ a <> b.

(** DDD.DDD.DDD-DD *)
Definition cpf_punctuated (d : str) : option str :=
  match d with
  | [d0; d1; d2; d3; d4; d5; d6; d7; d8; d9; d10] =>
      Some [d0; d1; d2; "."; d3; d4; d5; "."; d6; d7; d8; "-"; d9; d10]%char
  | _ => None
  end.

(** DD.DDD.DDD/DDDD-DD *)
Definition cnpj_punctuated (d : str) : option str :=
  match d with
  | [d0; d1; d2; d3; d4; d5; d6; d7; d8; d9; d10; d11; d12; d13] =>
      Some [d0; d1; "."; d2; d3; d4; "."; d5; d6; d7; "/";
            d8; d9; d10; d11; "-"; d12; d13]%char
  | _ => None
  end.

End Spec.

(* ================================================================== *)
(** ** More of Python's [str] *)

Module PyStr.

(** [str.isspace], which is also the class [\s] of [re], on code points
    below 256. *)
Definition is_space (c : ascii) : bool :=
  let n := nat_of_ascii c in
  ((9 <=? n) && (n <=? 13)) || ((28 <=? n) && (n <=? 32))
  || (n =? 133) || (n =? 160).

(** [s.lstrip()], [s.rstrip()] and [s.strip()]. *)
Fixpoint lstrip (s : str) : str :=
  match s with
  | [] => []
  | c :: s' => if is_space c then lstrip s' else s
  end.

Definition rstrip (s : str) : str := rev (lstrip (rev s)).

Definition strip (s : str) : str := rstrip (lstrip s).

(** [s.replace(c, '')] for a one-character string [c]. *)
Definition remove_chr (c : ascii) (s : str) : str :=
  filter (fun x => negb (chr_eqb x c)) s.

End PyStr.

Import PyStr.

(* ================================================================== *)
(** ** clientes/models.py: the validators of [Cliente] *)

Module ClienteModel.

(** The pattern [^\(\d{2}\)\s\d{4,5}-\d{4}$] of the column [telefone]:
    an area code in parentheses, one white-space character, then four or
    five digits, a hyphen and four digits. *)
Definition telefone_area : list atom := [Chr "("; Digit; Digit; Chr ")"].
Definition telefone_number4 : list atom :=
  [Digit; Digit; Digit; Digit; Chr "-"; Digit; Digit; Digit; Digit].
Definition telefone_number5 : list atom :=
  [Digit; Digit; Digit; Digit; Digit; Chr "-"; Digit; Digit; Digit; Digit].

(** The [RegexValidator] of the column [Cliente.telefone]. *)
Definition telefone_validator (value : str) : bool :=
  match match_atoms telefone_area value with
  | Some (s :: rest) =>
      is_space s
      && (anchored telefone_number5 rest || anchored telefone_number4 rest)
  | _ => false
  end.

(** [^\d{5}-\d{3}$] *)
Definition cep_pattern : list atom :=
  [Digit; Digit; Digit; Digit; Digit; Chr "-"; Digit; Digit; Digit].

(** The [RegexValidator] of the column [Cliente.cep]. *)
Definition cep_validator (value : str) : bool := anchored cep_pattern value.

Inductive Msg : Type :=
| CPF_11_digitos    (* {'cpf_cnpj': 'CPF deve ter 11 dígitos'} *)
| CNPJ_14_digitos.  (* {'cpf_cnpj': 'CNPJ deve ter 14 dígitos'} *)

(** [Cliente.clean], for the columns [tipo] and [cpf_cnpj]. *)
Definition clean (tipo cpf_cnpj : str) : outcome Msg unit :=
  if str_eqb tipo (lit "PF")
     && negb (len (remove_chr "-" (remove_chr "." cpf_cnpj)) =? 11)
  then Invalid CPF_11_digitos
  else if str_eqb tipo (lit "PJ")
          && negb (len (remove_chr "-"
                          (remove_chr "/" (remove_chr "." cpf_cnpj))) =? 14)
  then Invalid CNPJ_14_digitos
  else Ret tt.

End ClienteModel.

(* ================================================================== *)
(** ** clientes/forms.py: the postal code *)

Module ClienteFormFields.

Inductive Msg : Type :=
| Cep_tamanho.   (* 'CEP deve ter 8 dígitos.' *)

Definition result := outcome Msg.

(** [ClienteForm.clean_cep]. *)
Definition clean_cep (cep : str) : result str :=
  if truthy cep then
    let cep_numerico := re_sub_nondigit cep in
    if negb (len cep_numerico =? 8) then Invalid Cep_tamanho
    else Ret (slice_to 5 cep_numerico ++ lit "-" ++ slice_from 5 cep_numerico)
  else Ret cep.

End ClienteFormFields.

(* ================================================================== *)
(** ** core/forms.py: birth date and notification texts *)

(** [d - timedelta(days=n)] and [d + timedelta(days=n)] on date
    ordinals.  Python raises [OverflowError] when the result leaves
    [date.min .. date.max]; the date cleaners below are read for a clock
    [hoje] within [clock_in_range], where none of their sums does. *)
Definition date_minus_days (d : date) (n : Z) : date := (d - n)%Z.
Definition date_plus_days (d : date) (n : Z) : date := (d + n)%Z.

(** [date.min.toordinal()] and [date.max.toordinal()]. *)
Definition date_min : Z := 1.
Definition date_max : Z := 3652059.

(** The dates [hoje] from which 120 * 365 days can be subtracted and to
    which 3650 days can be added. *)
Definition clock_in_range (hoje : date) : Prop :=
  (date_min + 120 * 365 <= hoje <= date_max - 3650)%Z.

Module PerfilUsuarioFormFields.

Inductive Msg : Type :=
| Nascimento_no_futuro   (* 'A data de nascimento não pode ser no futuro.' *)
| Idade_minima           (* 'Idade mínima é 16 anos.' *)
| Nascimento_invalido.   (* 'Data de nascimento inválida.' *)

Definition result := outcome Msg.

(** [PerfilUsuarioForm.clean_data_nascimento], for the date [hoje] that
    [timezone.now().date()] gives. *)
Definition clean_data_nascimento (hoje : date) (data_nascimento : option date)
  : result (option date) :=
  match data_nascimento with
  | Some d =>
      if (d >? hoje)%Z then Invalid Nascimento_no_futuro
      else
        let idade_minima := date_minus_days hoje (16 * 365) in
        if (d >? idade_minima)%Z then Invalid Idade_minima
        else
          let idade_maxima := date_minus_days hoje (120 * 365) in
          if (d <? idade_maxima)%Z then Invalid Nascimento_invalido
          else Ret data_nascimento
  | None => Ret data_nascimento
  end.

End PerfilUsuarioFormFields.

Module NotificacaoForm.

Inductive Msg : Type :=
| Titulo_curto     (* 'O título deve ter pelo menos 3 caracteres.' *)
| Mensagem_curta.  (* 'A mensagem deve ter pelo menos 10 caracteres.' *)

Definition result := outcome Msg.

(** [clean_titulo]. *)
Definition clean_titulo (titulo : str) : result str :=
  if truthy titulo then
    let titulo := strip titulo in
    if len titulo <? 3 then Invalid Titulo_curto else Ret titulo
  else Ret titulo.

(** [clean_mensagem]. *)
Definition clean_mensagem (mensagem : str) : result str :=
  if truthy mensagem then
    let mensagem := strip mensagem in
    if len mensagem <? 10 then Invalid Mensagem_curta else Ret mensagem
  else Ret mensagem.

End NotificacaoForm.

(* ================================================================== *)
(** ** financeiro/forms.py: description, dates, balance and the filter *)

Module FinanceiroFormFields.

Inductive Msg : Type :=
| Descricao_curta       (* 'A descrição deve ter pelo menos 3 caracteres.' *)
| Descricao_longa       (* 'A descrição não pode ter mais de 200 caracteres.' *)
| Vencimento_passado    (* 'A data de vencimento não pode ser mais de 5 anos no passado.' *)
| Vencimento_futuro     (* 'A data de vencimento não pode ser mais de 10 anos no futuro.' *)
| Pagamento_futuro      (* 'A data de pagamento não pode ser no futuro.' *)
| Pagamento_passado.    (* 'A data de pagamento não pode ser mais de 5 anos no passado.' *)

Definition result := outcome Msg.

(** [FinanceiroForm.clean_descricao]. *)
Definition clean_descricao (descricao : str) : result str :=
  if truthy descricao then
    let descricao := strip descricao in
    if len descricao <? 3 then Invalid Descricao_curta
    else if 200 <? len descricao then Invalid Descricao_longa
    else Ret descricao
  else Ret descricao.

(** [FinanceiroForm.clean_data_vencimento]. *)
Definition clean_data_vencimento (hoje : date) (data_vencimento : option date)
  : result (option date) :=
  match data_vencimento with
  | Some d =>
      let limite_passado := date_minus_days hoje 1825 in
      if (d <? limite_passado)%Z then Invalid Vencimento_passado
      else
        let limite_futuro := date_plus_days hoje 3650 in
        if (d >? limite_futuro)%Z then Invalid Vencimento_futuro
        else Ret data_vencimento
  | None => Ret data_vencimento
  end.

(** [FinanceiroForm.clean_data_pagamento]. *)
Definition clean_data_pagamento (hoje : date) (data_pagamento : option date)
  : result (option date) :=
  match data_pagamento with
  | Some d =>
      if (d >? hoje)%Z then Invalid Pagamento_futuro
      else
        let limite_passado := date_minus_days hoje 1825 in
        if (d <? limite_passado)%Z then Invalid Pagamento_passado
        else Ret data_pagamento
  | None => Ret data_pagamento
  end.

End FinanceiroFormFields.

Module ContaBancariaForm.

Inductive Msg : Type :=
| Saldo_fora_dos_limites.  (* 'Saldo inicial fora dos limites permitidos.' *)

(** [clean_saldo_inicial]. *)
Definition clean_saldo_inicial (saldo : option Q) : outcome Msg (option Q) :=
  match saldo with
  | Some s =>
      if negb (Qle_bool (- valor_maximo) s) || negb (Qle_bool s valor_maximo)
      then Invalid Saldo_fora_dos_limites
      else Ret saldo
  | None => Ret saldo
  end.

End ContaBancariaForm.

Module FinanceiroFiltroForm.

Inductive Msg : Type :=
| Inicio_posterior_ao_fim  (* 'A data de início não pode ser posterior à data de fim.' *)
| Minimo_maior_que_maximo. (* 'O valor mínimo não pode ser maior que o valor máximo.' *)

Record cleaned_data : Type := {
  data_inicio : option date;
  data_fim : option date;
  valor_min : option Q;
  valor_max : option Q
}.

(** [bool(v)] for an optional [Decimal]: [None] and zero are falsy. *)
Definition decimal_truthy (v : option Q) : bool :=
  match v with
  | Some q => negb (Qeq_bool q 0)
  | None => false
  end.

(** [clean]. *)
Definition clean (cd : cleaned_data) : outcome Msg cleaned_data :=
  let bad_dates :=
    match data_inicio cd, data_fim cd with
    | Some i, Some f => (i >? f)%Z
    | _, _ => false
    end in
  if bad_dates then Invalid Inicio_posterior_ao_fim
  else
    match valor_min cd, valor_max cd with
    | Some lo, Some hi =>
        if decimal_truthy (valor_min cd) && decimal_truthy (valor_max cd)
           && negb (Qle_bool lo hi)
        then Invalid Minimo_maior_que_maximo
        else Ret cd
    | _, _ => Ret cd
    end.

End FinanceiroFiltroForm.

(* ================================================================== *)
(** ** documentos/forms.py: name and the upload form *)

Module DocumentoFormFields.

Inductive Msg : Type :=
| Nome_curto.   (* 'Nome deve ter pelo menos 3 caracteres.' *)

(** [DocumentoForm.clean_nome]. *)
Definition clean_nome (nome : str) : outcome Msg str :=
  if truthy nome then
    let nome := strip nome in
    if len nome <? 3 then Invalid Nome_curto else Ret nome
  else Ret nome.

End DocumentoFormFields.

Module DocumentoUploadForm.

Inductive Msg : Type :=
| Processo_ou_cliente.  (* 'É necessário informar pelo menos um processo ou cliente para os documentos.' *)

(** [clean], on the same entries as [DocumentoForm.clean]. *)
Definition clean (cd : DocumentoForm.cleaned_data)
  : outcome Msg DocumentoForm.cleaned_data :=
  if negb (present (DocumentoForm.processo cd))
     && negb (present (DocumentoForm.cliente cd))
  then Invalid Processo_ou_cliente
  else Ret cd.

End DocumentoUploadForm.

(* ================================================================== *)
(** ** agenda/forms.py: title, durations and the filter *)

Module AgendaFormFields.

Inductive Msg : Type :=
| Titulo_curto           (* 'O título deve ter pelo menos 3 caracteres.' *)
| Titulo_longo           (* 'O título não pode ter mais de 200 caracteres.' *)
| Duracao_minima         (* 'A duração deve ser de pelo menos 1 minuto.' *)
| Duracao_maxima         (* 'A duração não pode ser maior que 24 horas (1440 minutos).' *)
| Antecedencia_negativa  (* 'A antecedência não pode ser negativa.' *)
| Antecedencia_maxima.   (* 'A antecedência não pode ser maior que 1 semana.' *)

Definition result := outcome Msg.

(** [AgendaForm.clean_titulo]. *)
Definition clean_titulo (titulo : str) : result str :=
  if truthy titulo then
    let titulo := strip titulo in
    if len titulo <? 3 then Invalid Titulo_curto
    else if 200 <? len titulo then Invalid Titulo_longo
    else Ret titulo
  else Ret titulo.

(** [AgendaForm.clean_duracao]. *)
Definition clean_duracao (duracao : option Z) : result (option Z) :=
  match duracao with
  | Some d =>
      if (d <? 1)%Z then Invalid Duracao_minima
      else if (d >? 1440)%Z then Invalid Duracao_maxima
      else Ret duracao
  | None => Ret duracao
  end.

(** [AgendaForm.clean_notificar_antecedencia]. *)
Definition clean_notificar_antecedencia (antecedencia : option Z)
  : result (option Z) :=
  match antecedencia with
  | Some a =>
      if (a <? 0)%Z then Invalid Antecedencia_negativa
      else if (a >? 10080)%Z then Invalid Antecedencia_maxima
      else Ret antecedencia
  | None => Ret antecedencia
  end.

End AgendaFormFields.

Module TipoCompromissoForm.

Inductive Msg : Type :=
| Duracao_padrao_minima   (* 'A duração padrão deve ser de pelo menos 1 minuto.' *)
| Duracao_padrao_maxima.  (* 'A duração padrão não pode ser maior que 24 horas.' *)

(** [clean_duracao_padrao]. *)
Definition clean_duracao_padrao (duracao : option Z)
  : outcome Msg (option Z) :=
  match duracao with
  | Some d =>
      if (d <? 1)%Z then Invalid Duracao_padrao_minima
      else if (d >? 1440)%Z then Invalid Duracao_padrao_maxima
      else Ret duracao
  | None => Ret duracao
  end.

End TipoCompromissoForm.

(* ================================================================== *)
(** ** Completing a tax id *)

Module Complete.

(** The character of a digit value. *)
Definition digit_chr (v : Z) : ascii := ascii_of_nat (Z.to_nat (v + 48)).

(** The nine digits [base] followed by their two check digits. *)
Definition cpf_of_base (base : str) : str :=
  let d9 := Spec.check_digit Spec.cpf_weights1 (Spec.digits base) in
  let d10 := Spec.check_digit Spec.cpf_weights2
               (Spec.digits base ++ [d9]) in
  base ++ [digit_chr d9; digit_chr d10].

(** The twelve digits [base] followed by their two check digits. *)
Definition cnpj_of_base (base : str) : str :=
  let d12 := Spec.check_digit Spec.cnpj_weights1 (Spec.digits base) in
  let d13 := Spec.check_digit Spec.cnpj_weights2
               (Spec.digits base ++ [d12]) in
  base ++ [digit_chr d12; digit_chr d13].

End Complete.

(* ================================================================== *)
(** ** Strings and digits *)

Lemma chr_eqb_eq (a b : ascii) : chr_eqb a b = true <-> a = b.
Proof. unfold chr_eqb. apply Ascii.eqb_eq. Qed.

Lemma str_eqb_eq (s t : str) : str_eqb s t = true <-> s = t.
Proof.
  revert t; induction s as [|a s IH]; intros [|b t]; simpl;
    try (split; [discriminate | discriminate]); try tauto.
  rewrite andb_true_iff, chr_eqb_eq, IH.
  split; [intros [-> ->]; reflexivity | intros H; inversion H; auto].
Qed.

Lemma re_sub_nondigit_decimal (s : str) :
  Forall (fun c => is_decimal c = true) (re_sub_nondigit s).
Proof.
  apply Forall_forall; intros c H.
  apply filter_In in H; tauto.
Qed.

Lemma re_sub_nondigit_fixed (s : str) :
  Forall (fun c => is_decimal c = true) s -> re_sub_nondigit s = s.
Proof.
  unfold re_sub_nondigit; induction 1 as [|c s Hc _ IH]; simpl.
  - reflexivity.
  - rewrite Hc, IH; reflexivity.
Qed.

Lemma re_sub_nondigit_idem (s : str) :
  re_sub_nondigit (re_sub_nondigit s) = re_sub_nondigit s.
Proof. apply re_sub_nondigit_fixed, re_sub_nondigit_decimal. Qed.

Lemma digit_value_range (c : ascii) :
  is_decimal c = true -> (0 <= Spec.digit_value c <= 9)%Z.
Proof.
  unfold is_decimal, Spec.digit_value.
  rewrite andb_true_iff, !Nat.leb_le. lia.
Qed.

Lemma int_decimal (M : Type) (c : ascii) :
  is_decimal c = true -> @int M c = Ret (Spec.digit_value c).
Proof. unfold int; intros ->; reflexivity. Qed.

(* ================================================================== *)
(** ** The check-digit computation *)

Section CheckDigits.

Variable d : str.
Hypothesis d_decimal : Forall (fun c => is_decimal c = true) d.

Lemma int_at_digit (i : nat) :
  i < List.length d ->
  ClienteForm.int_at d i = Ret (Spec.digit_at (Spec.digits d) i).
Proof.
  intros Hi. unfold ClienteForm.int_at, getitem.
  destruct (nth_error d i) as [c|] eqn:E.
  - simpl. rewrite int_decimal.
    + unfold Spec.digit_at, Spec.digits.
      erewrite nth_error_nth; [reflexivity|].
      rewrite nth_error_map, E; reflexivity.
    + rewrite Forall_forall in d_decimal.
      eapply d_decimal, nth_error_In, E.
  - apply nth_error_None in E. lia.
Qed.

Lemma sum_from_weighted (ws : list Z) :
  forall (ds : list Z) (f : nat -> ClienteForm.result Z) (start : nat) (acc : Z),
    List.length ws <= List.length ds ->
    (forall k, k < List.length ws ->
               f (start + k) = Ret (nth k ds 0 * nth k ws 0)%Z) ->
    sum_from f (seq start (List.length ws)) acc
    = Ret (acc + Spec.weighted_sum ws ds)%Z.
Proof.
  induction ws as [|w ws IH]; intros ds f start acc Hlen Hf.
  - simpl. f_equal. lia.
  - destruct ds as [|x ds]; [simpl in Hlen; lia|].
    cbn [List.length seq sum_from].
    pose proof (Hf 0 ltac:(simpl; lia)) as H0.
    rewrite Nat.add_0_r in H0. rewrite H0. cbn [bind nth].
    rewrite (IH ds).
    + cbn [Spec.weighted_sum]. f_equal. lia.
    + simpl in Hlen. lia.
    + intros k Hk.
      replace (S start + k) with (start + S k) by lia.
      apply (Hf (S k)). simpl. lia.
Qed.

Lemma digit_at_nth (i : nat) :
  i < List.length d ->
  Spec.digit_at (Spec.digits d) i = nth i (Spec.digits d) 0%Z.
Proof.
  intros Hi. unfold Spec.digit_at. apply nth_indep.
  unfold Spec.digits. rewrite length_map. exact Hi.
Qed.

(** A weighted sum of the code, over [range (length ws)]. *)
Lemma sum_weights (ws : list Z) (f : nat -> ClienteForm.result Z) :
  List.length ws <= List.length d ->
  (forall k, k < List.length ws ->
             f k = (x <- ClienteForm.int_at d k ;; Ret (x * nth k ws 0)%Z)) ->
  sum f (range (List.length ws)) = Ret (Spec.weighted_sum ws (Spec.digits d)).
Proof.
  intros Hlen Hf. unfold sum, range.
  rewrite (sum_from_weighted ws (Spec.digits d)).
  - reflexivity.
  - unfold Spec.digits. rewrite length_map. exact Hlen.
  - intros k Hk. cbn [Nat.add].
    rewrite Hf by exact Hk.
    rewrite int_at_digit by lia. cbn [bind].
    rewrite digit_at_nth by lia. reflexivity.
Qed.

Lemma digito_check_digit (ws : list Z) :
  ClienteForm.digito (Spec.weighted_sum ws (Spec.digits d) mod 11)
  = Spec.check_digit ws (Spec.digits d).
Proof. reflexivity. Qed.

Lemma eq_first_times_head (n : nat) :
  0 < List.length d ->
  ClienteForm.eq_first_times d n
  = Ret (str_eqb d (repeat (hd "0"%char d) n)).
Proof.
  destruct d; simpl; [lia | reflexivity].
Qed.

Lemma validar_cpf_digits :
  List.length d = 11 ->
  ClienteForm._validar_cpf d
  = Ret (negb (str_eqb d (repeat (hd "0"%char d) 11))
         && (Spec.digit_at (Spec.digits d) 9
             =? Spec.check_digit Spec.cpf_weights1 (Spec.digits d))%Z
         && (Spec.digit_at (Spec.digits d) 10
             =? Spec.check_digit Spec.cpf_weights2 (Spec.digits d))%Z).
Proof.
  intros H. unfold ClienteForm._validar_cpf, len.
  rewrite H. cbn [Nat.eqb negb].
  rewrite eq_first_times_head by lia. cbn [bind].
  destruct (str_eqb d _); [reflexivity|]. cbn [negb andb].
  rewrite (sum_weights Spec.cpf_weights1).
  2: simpl; lia.
  2: { intros k Hk. simpl in Hk.
       do 9 (destruct k as [|k]; [reflexivity|]). lia. }
  cbn [bind]. rewrite digito_check_digit.
  rewrite int_at_digit by lia. cbn [bind].
  destruct (_ =? _)%Z; [|reflexivity]. cbn [negb andb].
  rewrite (sum_weights Spec.cpf_weights2).
  2: simpl; lia.
  2: { intros k Hk. simpl in Hk.
       do 10 (destruct k as [|k]; [reflexivity|]). lia. }
  cbn [bind]. rewrite digito_check_digit.
  rewrite int_at_digit by lia. reflexivity.
Qed.

Lemma validar_cnpj_digits :
  List.length d = 14 ->
  ClienteForm._validar_cnpj d
  = Ret (negb (str_eqb d (repeat (hd "0"%char d) 14))
         && (Spec.digit_at (Spec.digits d) 12
             =? Spec.check_digit Spec.cnpj_weights1 (Spec.digits d))%Z
         && (Spec.digit_at (Spec.digits d) 13
             =? Spec.check_digit Spec.cnpj_weights2 (Spec.digits d))%Z).
Proof.
  intros H. unfold ClienteForm._validar_cnpj, len.
  rewrite H. cbn [Nat.eqb negb].
  rewrite eq_first_times_head by lia. cbn [bind].
  destruct (str_eqb d _); [reflexivity|]. cbn [negb andb].
  rewrite (sum_weights Spec.cnpj_weights1).
  2: simpl; lia.
  2: { intros k Hk. simpl in Hk.
       do 12 (destruct k as [|k]; [reflexivity|]). lia. }
  cbn [bind]. rewrite digito_check_digit.
  rewrite int_at_digit by lia. cbn [bind].
  destruct (_ =? _)%Z; [|reflexivity]. cbn [negb andb].
  rewrite (sum_weights Spec.cnpj_weights2).
  2: simpl; lia.
  2: { intros k Hk. simpl in Hk.
       do 13 (destruct k as [|k]; [reflexivity|]). lia. }
  cbn [bind]. rewrite digito_check_digit.
  rewrite int_at_digit by lia. reflexivity.
Qed.

End CheckDigits.

(* ================================================================== *)
(** ** The tax-id cleaner *)

Lemma existing_nil (pk : option Z) (v : str) :
  ClienteForm.existing [] pk v = false.
Proof. destruct pk as [p|]; [|reflexivity]. simpl. destruct (p =? 0)%Z; reflexivity. Qed.

(** What [clean_cpf_cnpj] does once the stripped input has 11 digits. *)
Lemma clean_cpf_cnpj_len11 (db : list Cliente) (pk : option Z) (raw : str) :
  len (re_sub_nondigit raw) = 11 ->
  ClienteForm.clean_cpf_cnpj db pk raw
  = (ok <- ClienteForm._validar_cpf (re_sub_nondigit raw) ;;
     if negb ok then Invalid ClienteForm.CPF_invalido
     else if ClienteForm.existing db pk (re_sub_nondigit raw)
          then Invalid ClienteForm.Cpf_cnpj_ja_cadastrado
          else Ret (re_sub_nondigit raw)).
Proof.
  intros H. unfold ClienteForm.clean_cpf_cnpj.
  destruct raw as [|c raw]; [discriminate H|].
  cbn [truthy]. rewrite H. cbn [Nat.eqb].
  destruct (ClienteForm._validar_cpf _) as [[|]| |]; reflexivity.
Qed.

(** What [clean_cpf_cnpj] does once the stripped input has 14 digits. *)
Lemma clean_cpf_cnpj_len14 (db : list Cliente) (pk : option Z) (raw : str) :
  len (re_sub_nondigit raw) = 14 ->
  ClienteForm.clean_cpf_cnpj db pk raw
  = (ok <- ClienteForm._validar_cnpj (re_sub_nondigit raw) ;;
     if negb ok then Invalid ClienteForm.CNPJ_invalido
     else if ClienteForm.existing db pk (re_sub_nondigit raw)
          then Invalid ClienteForm.Cpf_cnpj_ja_cadastrado
          else Ret (re_sub_nondigit raw)).
Proof.
  intros H. unfold ClienteForm.clean_cpf_cnpj.
  destruct raw as [|c raw]; [discriminate H|].
  cbn [truthy]. rewrite H. cbn [Nat.eqb].
  destruct (ClienteForm._validar_cnpj _) as [[|]| |]; reflexivity.
Qed.

(** What [clean_cpf_cnpj] does on any other non-empty input. *)
Lemma clean_cpf_cnpj_other (db : list Cliente) (pk : option Z) (raw : str) :
  raw <> [] ->
  len (re_sub_nondigit raw) <> 11 -> len (re_sub_nondigit raw) <> 14 ->
  ClienteForm.clean_cpf_cnpj db pk raw
  = Invalid ClienteForm.Tamanho_cpf_cnpj.
Proof.
  intros Hraw H11 H14. unfold ClienteForm.clean_cpf_cnpj.
  destruct raw as [|c raw]; [congruence|]. cbn [truthy].
  apply Nat.eqb_neq in H11, H14. rewrite H11, H14. reflexivity.
Qed.

Lemma repeated_head (s : str) (n : nat) :
  List.length s = n ->
  (str_eqb s (repeat (hd "0"%char s) n) = true <-> Spec.single_repeated s).
Proof.
  intros <-. rewrite str_eqb_eq. unfold Spec.single_repeated.
  split.
  - intros H. eexists. exact H.
  - intros [c H]. destruct s as [|a s]; [reflexivity|].
    simpl in H. injection H as Ha Hs. subst c.
    simpl. f_equal. exact Hs.
Qed.

(** The verdict of the validator on a stripped input of 11 digits. *)
Lemma validate_tax_id_len11 (raw : str) :
  len (re_sub_nondigit raw) = 11 ->
  validate_tax_id raw
  = let d := re_sub_nondigit raw in
    if negb (str_eqb d (repeat (hd "0"%char d) 11))
       && (Spec.digit_at (Spec.digits d) 9
           =? Spec.check_digit Spec.cpf_weights1 (Spec.digits d))%Z
       && (Spec.digit_at (Spec.digits d) 10
           =? Spec.check_digit Spec.cpf_weights2 (Spec.digits d))%Z
    then Ret d else Invalid ClienteForm.CPF_invalido.
Proof.
  intros H. unfold validate_tax_id.
  rewrite clean_cpf_cnpj_len11 by exact H.
  rewrite validar_cpf_digits by (exact H || apply re_sub_nondigit_decimal).
  cbn [bind]. rewrite existing_nil.
  destruct (_ && _); reflexivity.
Qed.

(** The verdict of the validator on a stripped input of 14 digits. *)
Lemma validate_tax_id_len14 (raw : str) :
  len (re_sub_nondigit raw) = 14 ->
  validate_tax_id raw
  = let d := re_sub_nondigit raw in
    if negb (str_eqb d (repeat (hd "0"%char d) 14))
       && (Spec.digit_at (Spec.digits d) 12
           =? Spec.check_digit Spec.cnpj_weights1 (Spec.digits d))%Z
       && (Spec.digit_at (Spec.digits d) 13
           =? Spec.check_digit Spec.cnpj_weights2 (Spec.digits d))%Z
    then Ret d else Invalid ClienteForm.CNPJ_invalido.
Proof.
  intros H. unfold validate_tax_id.
  rewrite clean_cpf_cnpj_len14 by exact H.
  rewrite validar_cnpj_digits by (exact H || apply re_sub_nondigit_decimal).
  cbn [bind]. rewrite existing_nil.
  destruct (_ && _); reflexivity.
Qed.

Lemma not_repeated_head (s : str) (n : nat) :
  List.length s = n -> ~ Spec.single_repeated s ->
  str_eqb s (repeat (hd "0"%char s) n) = false.
Proof.
  intros Hn Hs. apply not_true_is_false. intros H.
  apply Hs. apply (repeated_head s n Hn). exact H.
Qed.

(** C1. When the stripped input has 11 digits that are not one repeated
    digit, the validator accepts exactly when digit 10 is the check digit
    of the first nine digits under the weights 10 - i, and digit 11 the
    check digit of the first ten under the weights 11 - i; with 14 digits,
    exactly when digits 13 and 14 are the check digits under the two fixed
    weight vectors.  The digits of 11144477735 and of 11222333000181 are
    accepted. *)
Theorem tax_id_accepted_iff_check_digits :
  (forall raw : str,
      List.length (re_sub_nondigit raw) = 11 ->
      ~ Spec.single_repeated (re_sub_nondigit raw) ->
      (accepted raw
       <-> Spec.cpf_check_digits_ok (Spec.digits (re_sub_nondigit raw))))
  /\ (forall raw : str,
      List.length (re_sub_nondigit raw) = 14 ->
      ~ Spec.single_repeated (re_sub_nondigit raw) ->
      (accepted raw
       <-> Spec.cnpj_check_digits_ok (Spec.digits (re_sub_nondigit raw))))
  /\ accepted (lit "11144477735")
  /\ accepted (lit "11222333000181").
Proof.
  split; [|split; [|split]].
  - intros raw H Hrep. unfold accepted.
    rewrite validate_tax_id_len11 by exact H. cbv zeta.
    rewrite (not_repeated_head _ _ H Hrep). cbn [negb andb].
    unfold Spec.cpf_check_digits_ok.
    destruct (Z.eqb_spec (Spec.digit_at (Spec.digits (re_sub_nondigit raw)) 9)
                (Spec.check_digit Spec.cpf_weights1
                   (Spec.digits (re_sub_nondigit raw)))) as [E1|E1];
      destruct (Z.eqb_spec (Spec.digit_at (Spec.digits (re_sub_nondigit raw)) 10)
                  (Spec.check_digit Spec.cpf_weights2
                     (Spec.digits (re_sub_nondigit raw)))) as [E2|E2];
      cbn [andb]; split;
      try (intros [v Hv]; discriminate Hv);
      try (intros [? ?]; contradiction);
      try (intros _; split; assumption);
      try (intros _; eexists; reflexivity).
  - intros raw H Hrep. unfold accepted.
    rewrite validate_tax_id_len14 by exact H. cbv zeta.
    rewrite (not_repeated_head _ _ H Hrep). cbn [negb andb].
    unfold Spec.cnpj_check_digits_ok.
    destruct (Z.eqb_spec (Spec.digit_at (Spec.digits (re_sub_nondigit raw)) 12)
                (Spec.check_digit Spec.cnpj_weights1
                   (Spec.digits (re_sub_nondigit raw)))) as [E1|E1];
      destruct (Z.eqb_spec (Spec.digit_at (Spec.digits (re_sub_nondigit raw)) 13)
                  (Spec.check_digit Spec.cnpj_weights2
                     (Spec.digits (re_sub_nondigit raw)))) as [E2|E2];
      cbn [andb]; split;
      try (intros [v Hv]; discriminate Hv);
      try (intros [? ?]; contradiction);
      try (intros _; split; assumption);
      try (intros _; eexists; reflexivity).
  - eexists. vm_compute. reflexivity.
  - eexists. vm_compute. reflexivity.
Qed.

Lemma tax_id_accepted_iff_check_digits_witness :
  (accepted (lit "111.444.777-35")
   <-> Spec.cpf_check_digits_ok (Spec.digits (lit "11144477735")))
  /\ (accepted (lit "11.222.333/0001-81")
      <-> Spec.cnpj_check_digits_ok (Spec.digits (lit "11222333000181"))).
Proof.
  split.
  - apply (proj1 tax_id_accepted_iff_check_digits (lit "111.444.777-35")).
    + reflexivity.
    + intros [c H]. simpl in H. congruence.
  - apply (proj1 (proj2 tax_id_accepted_iff_check_digits)
             (lit "11.222.333/0001-81")).
    + reflexivity.
    + intros [c H]. simpl in H. congruence.
Defined.

(** The cleaner never ends in a Python exception other than a
    [ValidationError]. *)
Lemma clean_cpf_cnpj_no_crash (db : list Cliente) (pk : option Z)
      (raw : str) (x : exn) :
  ClienteForm.clean_cpf_cnpj db pk raw <> Crash x.
Proof.
  destruct raw as [|c raw']; [discriminate|].
  set (raw := c :: raw').
  destruct (Nat.eq_dec (len (re_sub_nondigit raw)) 11) as [E11|N11].
  - rewrite clean_cpf_cnpj_len11 by exact E11.
    rewrite validar_cpf_digits by (exact E11 || apply re_sub_nondigit_decimal).
    cbn [bind]. destruct (_ && _); cbn [negb]; [|discriminate].
    destruct (ClienteForm.existing _ _ _); discriminate.
  - destruct (Nat.eq_dec (len (re_sub_nondigit raw)) 14) as [E14|N14].
    + rewrite clean_cpf_cnpj_len14 by exact E14.
      rewrite validar_cnpj_digits
        by (exact E14 || apply re_sub_nondigit_decimal).
      cbn [bind]. destruct (_ && _); cbn [negb]; [|discriminate].
      destruct (ClienteForm.existing _ _ _); discriminate.
    + rewrite clean_cpf_cnpj_other by (assumption || discriminate).
      discriminate.
Qed.

(** An accepted non-empty input is returned as its bare digits. *)
Lemma clean_cpf_cnpj_returns_digits (db : list Cliente) (pk : option Z)
      (raw v : str) :
  raw <> [] ->
  ClienteForm.clean_cpf_cnpj db pk raw = Ret v ->
  v = re_sub_nondigit raw /\ (len v = 11 \/ len v = 14).
Proof.
  intros Hraw H.
  destruct (Nat.eq_dec (len (re_sub_nondigit raw)) 11) as [E11|N11].
  - rewrite clean_cpf_cnpj_len11 in H by exact E11.
    destruct (ClienteForm._validar_cpf _) as [[|]| |]; cbn in H;
      try discriminate H.
    destruct (ClienteForm.existing _ _ _); [discriminate H|].
    injection H as <-. split; [reflexivity | left; exact E11].
  - destruct (Nat.eq_dec (len (re_sub_nondigit raw)) 14) as [E14|N14].
    + rewrite clean_cpf_cnpj_len14 in H by exact E14.
      destruct (ClienteForm._validar_cnpj _) as [[|]| |]; cbn in H;
        try discriminate H.
      destruct (ClienteForm.existing _ _ _); [discriminate H|].
      injection H as <-. split; [reflexivity | right; exact E14].
    + rewrite clean_cpf_cnpj_other in H by assumption. discriminate H.
Qed.

Lemma decimal_not_chr (a c : ascii) :
  is_decimal a = false -> is_decimal c = true -> chr_eqb a c = false.
Proof.
  intros Ha Hc. apply not_true_is_false. intros H.
  apply chr_eqb_eq in H. congruence.
Qed.

(** A string of digits alone does not pass the validator of the column
    [Cliente.cpf_cnpj]. *)
Lemma digits_fail_cpf_cnpj_validator (v : str) :
  Forall (fun c => is_decimal c = true) v -> cpf_cnpj_validator v = false.
Proof.
  intros F. unfold cpf_cnpj_validator, anchored.
  assert (match_atoms cpf_pattern v = None) as ->.
  { destruct v as [|c0 [|c1 [|c2 [|c3 v]]]];
      repeat match goal with
             | H : Forall _ (_ :: _) |- _ => inversion H; clear H; subst
             end;
      cbn [cpf_pattern match_atoms];
      repeat match goal with
             | H : is_decimal _ = true |- _ => rewrite H
             end; try reflexivity.
    rewrite (decimal_not_chr "."%char c3) by (reflexivity || assumption).
    reflexivity. }
  assert (match_atoms cnpj_pattern v = None) as ->.
  { destruct v as [|c0 [|c1 [|c2 v]]];
      repeat match goal with
             | H : Forall _ (_ :: _) |- _ => inversion H; clear H; subst
             end;
      cbn [cnpj_pattern match_atoms];
      repeat match goal with
             | H : is_decimal _ = true |- _ => rewrite H
             end; try reflexivity.
    rewrite (decimal_not_chr "."%char c2) by (reflexivity || assumption).
    reflexivity. }
  reflexivity.
Qed.

(** Whatever the cleaner accepts from a non-empty input is refused by
    the validator of the column it is stored in. *)
Lemma accepted_value_fails_column_validator (db : list Cliente)
      (pk : option Z) (raw v : str) :
  raw <> [] ->
  ClienteForm.clean_cpf_cnpj db pk raw = Ret v ->
  cpf_cnpj_validator v = false.
Proof.
  intros Hraw H.
  destruct (clean_cpf_cnpj_returns_digits db pk raw v Hraw H) as [-> _].
  apply digits_fail_cpf_cnpj_validator, re_sub_nondigit_decimal.
Qed.

(** C2. On the valid inputs 11144477735 and 11222333000181 the cleaner
    returns the bare digits, not the punctuated forms 111.444.777-35 and
    11.222.333/0001-81, which are the ones the validator of the column
    [Cliente.cpf_cnpj] requires. *)
Theorem tax_id_returned_without_punctuation :
  validate_tax_id (lit "11144477735") = Ret (lit "11144477735")
  /\ Spec.cpf_punctuated (lit "11144477735") = Some (lit "111.444.777-35")
  /\ validate_tax_id (lit "11144477735") <> Ret (lit "111.444.777-35")
  /\ validate_tax_id (lit "111.444.777-35") = Ret (lit "11144477735")
  /\ validate_tax_id (lit "11222333000181") = Ret (lit "11222333000181")
  /\ Spec.cnpj_punctuated (lit "11222333000181")
     = Some (lit "11.222.333/0001-81")
  /\ validate_tax_id (lit "11222333000181") <> Ret (lit "11.222.333/0001-81")
  /\ cpf_cnpj_validator (lit "11144477735") = false
  /\ cpf_cnpj_validator (lit "111.444.777-35") = true
  /\ cpf_cnpj_validator (lit "11222333000181") = false
  /\ cpf_cnpj_validator (lit "11.222.333/0001-81") = true.
Proof.
  repeat split; try (vm_compute; reflexivity); vm_compute; discriminate.
Qed.

(** The claim C3 as the specification has it fails at the empty string,
    which the cleaner returns unchanged. *)
Lemma empty_tax_id_not_rejected :
  List.length (re_sub_nondigit []) <> 11
  /\ List.length (re_sub_nondigit []) <> 14
  /\ validate_tax_id [] = Ret []
  /\ validate_tax_id [] <> Invalid ClienteForm.Tamanho_cpf_cnpj.
Proof.
  repeat split; try (simpl; lia); try reflexivity. discriminate.
Qed.

(** C3 (amended). Every non-empty input whose stripped digits number
    neither 11 nor 14 is rejected for its length; the empty string is
    returned as it is; and for no input, whatever clients are stored,
    does the cleaner end in an exception that is not a validation
    error. *)
Theorem tax_id_wrong_length :
  (forall raw : str,
      raw <> [] ->
      List.length (re_sub_nondigit raw) <> 11 ->
      List.length (re_sub_nondigit raw) <> 14 ->
      validate_tax_id raw = Invalid ClienteForm.Tamanho_cpf_cnpj)
  /\ validate_tax_id [] = Ret []
  /\ (forall (db : list Cliente) (pk : option Z) (raw : str) (x : exn),
         ClienteForm.clean_cpf_cnpj db pk raw <> Crash x).
Proof.
  split; [|split].
  - intros raw Hraw H11 H14. apply clean_cpf_cnpj_other; assumption.
  - reflexivity.
  - apply clean_cpf_cnpj_no_crash.
Qed.

Lemma tax_id_wrong_length_witness :
  validate_tax_id (lit "123.456") = Invalid ClienteForm.Tamanho_cpf_cnpj.
Proof.
  apply (proj1 tax_id_wrong_length (lit "123.456")).
  - discriminate.
  - simpl. lia.
  - simpl. lia.
Defined.

(** The verdict of the validator on stripped digits that are not one
    digit repeated and fail a check-digit equation. *)
Lemma wrong_check_digit_cpf (raw : str) :
  List.length (re_sub_nondigit raw) = 11 ->
  ~ Spec.single_repeated (re_sub_nondigit raw) ->
  ~ Spec.cpf_check_digits_ok (Spec.digits (re_sub_nondigit raw)) ->
  validate_tax_id raw = Invalid ClienteForm.CPF_invalido.
Proof.
  intros H Hrep Hbad. rewrite validate_tax_id_len11 by exact H. cbv zeta.
  rewrite (not_repeated_head _ _ H Hrep). cbn [negb andb].
  destruct (Z.eqb_spec (Spec.digit_at (Spec.digits (re_sub_nondigit raw)) 9)
              (Spec.check_digit Spec.cpf_weights1
                 (Spec.digits (re_sub_nondigit raw)))) as [E1|E1];
    [|reflexivity].
  destruct (Z.eqb_spec (Spec.digit_at (Spec.digits (re_sub_nondigit raw)) 10)
              (Spec.check_digit Spec.cpf_weights2
                 (Spec.digits (re_sub_nondigit raw)))) as [E2|E2];
    [|reflexivity].
  exfalso. apply Hbad. split; assumption.
Qed.

Lemma wrong_check_digit_cnpj (raw : str) :
  List.length (re_sub_nondigit raw) = 14 ->
  ~ Spec.single_repeated (re_sub_nondigit raw) ->
  ~ Spec.cnpj_check_digits_ok (Spec.digits (re_sub_nondigit raw)) ->
  validate_tax_id raw = Invalid ClienteForm.CNPJ_invalido.
Proof.
  intros H Hrep Hbad. rewrite validate_tax_id_len14 by exact H. cbv zeta.
  rewrite (not_repeated_head _ _ H Hrep). cbn [negb andb].
  destruct (Z.eqb_spec (Spec.digit_at (Spec.digits (re_sub_nondigit raw)) 12)
              (Spec.check_digit Spec.cnpj_weights1
                 (Spec.digits (re_sub_nondigit raw)))) as [E1|E1];
    [|reflexivity].
  destruct (Z.eqb_spec (Spec.digit_at (Spec.digits (re_sub_nondigit raw)) 13)
              (Spec.check_digit Spec.cnpj_weights2
                 (Spec.digits (re_sub_nondigit raw)))) as [E2|E2];
    [|reflexivity].
  exfalso. apply Hbad. split; assumption.
Qed.

(** The claim C4 as the specification has it fails in the verdict: the
    cleaner has no rejection of its own for a repeated digit.  The
    repeated 11111111111 and 11144477734, which is not repeated and has
    a wrong last check digit, get one and the same verdict. *)
Lemma repeated_digit_verdict_not_distinct :
  Spec.single_repeated (lit "11111111111")
  /\ ~ Spec.single_repeated (lit "11144477734")
  /\ ~ Spec.cpf_check_digits_ok (Spec.digits (lit "11144477734"))
  /\ validate_tax_id (lit "11111111111") = Invalid ClienteForm.CPF_invalido
  /\ validate_tax_id (lit "11144477734") = Invalid ClienteForm.CPF_invalido
  /\ validate_tax_id (lit "11111111111")
     = validate_tax_id (lit "11144477734").
Proof.
  split; [|split; [|split; [|split; [|split]]]].
  - exists "1"%char. reflexivity.
  - intros [c H]. simpl in H. congruence.
  - intros [_ H]. vm_compute in H. discriminate H.
  - vm_compute. reflexivity.
  - vm_compute. reflexivity.
  - vm_compute. reflexivity.
Qed.

(** C4 (amended). An input whose stripped digits are one digit repeated
    11 or 14 times is rejected, also when the digits satisfy the
    check-digit equations, as those of 11111111111 and of 00000000000000
    do.  The rejection is the general one of an invalid CPF or CNPJ, the
    very verdict that digits which are not repeated and fail a
    check-digit equation get: the cleaner has no verdict that tells a
    repeated digit apart. *)
Theorem tax_id_repeated_digit_rejected :
  (forall raw : str,
      List.length (re_sub_nondigit raw) = 11 ->
      Spec.single_repeated (re_sub_nondigit raw) ->
      validate_tax_id raw = Invalid ClienteForm.CPF_invalido)
  /\ (forall raw : str,
      List.length (re_sub_nondigit raw) = 14 ->
      Spec.single_repeated (re_sub_nondigit raw) ->
      validate_tax_id raw = Invalid ClienteForm.CNPJ_invalido)
  /\ (forall raw : str,
      List.length (re_sub_nondigit raw) = 11 ->
      ~ Spec.single_repeated (re_sub_nondigit raw) ->
      ~ Spec.cpf_check_digits_ok (Spec.digits (re_sub_nondigit raw)) ->
      validate_tax_id raw = Invalid ClienteForm.CPF_invalido)
  /\ (forall raw : str,
      List.length (re_sub_nondigit raw) = 14 ->
      ~ Spec.single_repeated (re_sub_nondigit raw) ->
      ~ Spec.cnpj_check_digits_ok (Spec.digits (re_sub_nondigit raw)) ->
      validate_tax_id raw = Invalid ClienteForm.CNPJ_invalido)
  /\ (Spec.cpf_check_digits_ok (Spec.digits (lit "11111111111"))
      /\ validate_tax_id (lit "11111111111")
         = Invalid ClienteForm.CPF_invalido)
  /\ (Spec.cnpj_check_digits_ok (Spec.digits (lit "00000000000000"))
      /\ validate_tax_id (lit "00000000000000")
         = Invalid ClienteForm.CNPJ_invalido).
Proof.
  split; [|split; [|split; [|split; [|split]]]].
  - intros raw H Hrep. rewrite validate_tax_id_len11 by exact H. cbv zeta.
    apply (repeated_head _ _ H) in Hrep. rewrite Hrep. reflexivity.
  - intros raw H Hrep. rewrite validate_tax_id_len14 by exact H. cbv zeta.
    apply (repeated_head _ _ H) in Hrep. rewrite Hrep. reflexivity.
  - apply wrong_check_digit_cpf.
  - apply wrong_check_digit_cnpj.
  - split; [split|]; vm_compute; reflexivity.
  - split; [split|]; vm_compute; reflexivity.
Qed.

Lemma tax_id_repeated_digit_rejected_witness :
  validate_tax_id (lit "222.222.222-22") = Invalid ClienteForm.CPF_invalido
  /\ validate_tax_id (lit "33.333.333/3333-33")
     = Invalid ClienteForm.CNPJ_invalido
  /\ validate_tax_id (lit "111.444.777-34") = Invalid ClienteForm.CPF_invalido
  /\ validate_tax_id (lit "11.222.333/0001-80")
     = Invalid ClienteForm.CNPJ_invalido.
Proof.
  split; [|split; [|split]].
  - apply (proj1 tax_id_repeated_digit_rejected (lit "222.222.222-22")).
    + reflexivity.
    + exists "2"%char. reflexivity.
  - apply (proj1 (proj2 tax_id_repeated_digit_rejected)
             (lit "33.333.333/3333-33")).
    + reflexivity.
    + exists "3"%char. reflexivity.
  - apply (proj1 (proj2 (proj2 tax_id_repeated_digit_rejected))
             (lit "111.444.777-34")).
    + reflexivity.
    + intros [c H]. simpl in H. congruence.
    + intros [_ H]. vm_compute in H. discriminate H.
  - apply (proj1 (proj2 (proj2 (proj2 tax_id_repeated_digit_rejected)))
             (lit "11.222.333/0001-80")).
    + reflexivity.
    + intros [c H]. simpl in H. congruence.
    + intros [_ H]. vm_compute in H. discriminate H.
Defined.

(** C8. Validation is idempotent: a value the cleaner returns is
    returned again when it is cleaned a second time, against the same
    stored clients; in particular for the validator itself. *)
Theorem tax_id_idempotent :
  (forall raw v : str,
      validate_tax_id raw = Ret v -> validate_tax_id v = Ret v)
  /\ (forall (db : list Cliente) (pk : option Z) (raw v : str),
         ClienteForm.clean_cpf_cnpj db pk raw = Ret v ->
         ClienteForm.clean_cpf_cnpj db pk v = Ret v).
Proof.
  assert (forall (db : list Cliente) (pk : option Z) (raw v : str),
             ClienteForm.clean_cpf_cnpj db pk raw = Ret v ->
             ClienteForm.clean_cpf_cnpj db pk v = Ret v) as G.
  { intros db pk raw v H.
    destruct raw as [|c raw'].
    - simpl in H. injection H as <-. reflexivity.
    - set (raw := c :: raw') in *.
      assert (raw <> []) as Hraw by discriminate.
      destruct (clean_cpf_cnpj_returns_digits db pk raw v Hraw H)
        as [Hv [E|E]]; subst v.
      + rewrite clean_cpf_cnpj_len11
          by (rewrite re_sub_nondigit_idem; exact E).
        rewrite re_sub_nondigit_idem.
        rewrite <- clean_cpf_cnpj_len11 by exact E. exact H.
      + rewrite clean_cpf_cnpj_len14
          by (rewrite re_sub_nondigit_idem; exact E).
        rewrite re_sub_nondigit_idem.
        rewrite <- clean_cpf_cnpj_len14 by exact E. exact H. }
  split; [|exact G].
  intros raw v. apply G.
Qed.

Lemma tax_id_idempotent_witness :
  validate_tax_id (lit "11144477735") = Ret (lit "11144477735").
Proof.
  apply (proj1 tax_id_idempotent (lit "111.444.777-35")).
  vm_compute. reflexivity.
Defined.

(* ================================================================== *)
(** ** The phone cleaners *)

Lemma ltb_10_false (n : nat) : 11 < n -> (n <? 10) = false.
Proof. intros H. apply Nat.ltb_ge. lia. Qed.

Lemma eqb_10_false (n : nat) : 11 < n -> (n =? 10) = false.
Proof. intros H. apply Nat.eqb_neq. lia. Qed.

Lemma eqb_11_false (n : nat) : 11 < n -> (n =? 11) = false.
Proof. intros H. apply Nat.eqb_neq. lia. Qed.

(** The claim C5 as the specification has it fails on the phone cleaners
    of the system-configuration and of the user-profile form: a phone of
    12 digits is returned as it was entered. *)
Lemma overlong_phone_passed_through :
  11 < List.length (join_filter_isdigit (lit "119876543210"))
  /\ ConfiguracaoForm.clean_telefone (lit "119876543210")
     = Ret (lit "119876543210")
  /\ PerfilUsuarioForm.clean_telefone (lit "119876543210")
     = Ret (lit "119876543210").
Proof.
  split; [simpl; lia | split; reflexivity].
Qed.

(** C5 (amended). The phone cleaner of the client form rejects every
    input whose stripped digits number more than 11.  The phone cleaners
    of the system-configuration and of the user-profile form reject
    exactly the non-empty inputs of fewer than 10 digits: they accept
    every input of 10 digits or more, and one of more than 11 digits
    they return exactly as it was entered, neither truncated nor
    formatted. *)
Theorem overlong_phone :
  (forall raw : str,
      11 < List.length (re_sub_nondigit raw) ->
      ClienteForm.clean_telefone raw
      = Invalid ClienteForm.Telefone_tamanho)
  /\ (forall raw : str,
      11 < List.length (join_filter_isdigit raw) ->
      ConfiguracaoForm.clean_telefone raw = Ret raw)
  /\ (forall raw : str,
      11 < List.length (join_filter_isdigit raw) ->
      PerfilUsuarioForm.clean_telefone raw = Ret raw)
  /\ (forall raw : str,
      raw <> [] ->
      ((exists m, ConfiguracaoForm.clean_telefone raw = Invalid m)
       <-> List.length (join_filter_isdigit raw) < 10)
      /\ (List.length (join_filter_isdigit raw) < 10 ->
          ConfiguracaoForm.clean_telefone raw
          = Invalid ConfiguracaoForm.Telefone_curto)
      /\ (10 <= List.length (join_filter_isdigit raw) ->
          exists v, ConfiguracaoForm.clean_telefone raw = Ret v))
  /\ (forall raw : str,
      raw <> [] ->
      ((exists m, PerfilUsuarioForm.clean_telefone raw = Invalid m)
       <-> List.length (join_filter_isdigit raw) < 10)
      /\ (List.length (join_filter_isdigit raw) < 10 ->
          PerfilUsuarioForm.clean_telefone raw
          = Invalid PerfilUsuarioForm.Telefone_curto)
      /\ (10 <= List.length (join_filter_isdigit raw) ->
          exists v, PerfilUsuarioForm.clean_telefone raw = Ret v)).
Proof.
  split; [|split; [|split; [|split]]]; intros raw H.
  - unfold ClienteForm.clean_telefone.
    destruct raw as [|c raw']; [simpl in H; lia|]. cbn [truthy].
    unfold len.
    rewrite (ltb_10_false _ H), (eqb_10_false _ H), (eqb_11_false _ H).
    reflexivity.
  - unfold ConfiguracaoForm.clean_telefone.
    destruct raw as [|c raw']; [simpl in H; lia|]. cbn [truthy].
    unfold len.
    rewrite (ltb_10_false _ H), (eqb_10_false _ H), (eqb_11_false _ H).
    reflexivity.
  - unfold PerfilUsuarioForm.clean_telefone.
    destruct raw as [|c raw']; [simpl in H; lia|]. cbn [truthy].
    unfold len.
    rewrite (ltb_10_false _ H), (eqb_10_false _ H), (eqb_11_false _ H).
    reflexivity.
  - unfold ConfiguracaoForm.clean_telefone.
    destruct raw as [|c raw']; [congruence|]. cbn [truthy]. unfold len.
    destruct (List.length (join_filter_isdigit (c :: raw')) <? 10) eqn:E.
    + apply Nat.ltb_lt in E. split; [|split].
      * split; [intros _; exact E | intros _; eexists; reflexivity].
      * reflexivity.
      * intros L. lia.
    + apply Nat.ltb_ge in E. split; [|split].
      * split; [intros [m Hm]; discriminate Hm | intros L; lia].
      * intros L. lia.
      * intros _. eexists. reflexivity.
  - unfold PerfilUsuarioForm.clean_telefone.
    destruct raw as [|c raw']; [congruence|]. cbn [truthy]. unfold len.
    destruct (List.length (join_filter_isdigit (c :: raw')) <? 10) eqn:E.
    + apply Nat.ltb_lt in E. split; [|split].
      * split; [intros _; exact E | intros _; eexists; reflexivity].
      * reflexivity.
      * intros L. lia.
    + apply Nat.ltb_ge in E. split; [|split].
      * split; [intros [m Hm]; discriminate Hm | intros L; lia].
      * intros L. lia.
      * intros _. eexists. reflexivity.
Qed.

Lemma overlong_phone_witness :
  ClienteForm.clean_telefone (lit "+55 (11) 98765-4321")
  = Invalid ClienteForm.Telefone_tamanho
  /\ ConfiguracaoForm.clean_telefone (lit "+55 (11) 98765-4321")
     = Ret (lit "+55 (11) 98765-4321")
  /\ PerfilUsuarioForm.clean_telefone (lit "+55 (11) 98765-4321")
     = Ret (lit "+55 (11) 98765-4321")
  /\ ConfiguracaoForm.clean_telefone (lit "9876-5432")
     = Invalid ConfiguracaoForm.Telefone_curto
  /\ PerfilUsuarioForm.clean_telefone (lit "9876-5432")
     = Invalid PerfilUsuarioForm.Telefone_curto
  /\ (exists v, ConfiguracaoForm.clean_telefone (lit "11 98765-4321") = Ret v)
  /\ (exists v, PerfilUsuarioForm.clean_telefone (lit "11 98765-4321") = Ret v).
Proof.
  split; [|split; [|split; [|split; [|split; [|split]]]]].
  - apply (proj1 overlong_phone). simpl. lia.
  - apply (proj1 (proj2 overlong_phone)). simpl. lia.
  - apply (proj1 (proj2 (proj2 overlong_phone))). simpl. lia.
  - apply (proj1 (proj2 (proj2 (proj2 overlong_phone)))
             (lit "9876-5432")); [discriminate | simpl; lia].
  - apply (proj2 (proj2 (proj2 (proj2 overlong_phone)))
             (lit "9876-5432")); [discriminate | simpl; lia].
  - apply (proj1 (proj2 (proj2 (proj2 overlong_phone)))
             (lit "11 98765-4321")); [discriminate | simpl; lia].
  - apply (proj2 (proj2 (proj2 (proj2 overlong_phone)))
             (lit "11 98765-4321")); [discriminate | simpl; lia].
Defined.

(* ================================================================== *)
(** ** The monetary bounds *)

Lemma Qle_bool_false (x y : Q) : Qle_bool x y = false <-> (y < x)%Q.
Proof.
  split.
  - intros H. apply Qnot_le_lt. intros L.
    apply Qle_bool_iff in L. congruence.
  - intros H. apply not_true_is_false. intros L.
    apply Qle_bool_iff in L. apply (Qlt_not_le _ _ H L).
Qed.

(** The claim C6 as the specification has it fails at the lower bound:
    the value 0 lies within the bounds 0 and 999999999.99, and both
    cleaners reject it. *)
Lemma zero_amount_rejected :
  (0 <= 0)%Q /\ (0 <= valor_maximo)%Q
  /\ FinanceiroForm.clean_valor (Some 0%Q)
     = Invalid FinanceiroForm.Valor_maior_que_zero
  /\ OrcamentoForm.clean_valor_total (Some 0%Q)
     = Invalid OrcamentoForm.Valor_total_maior_que_zero.
Proof.
  repeat split; try reflexivity; discriminate.
Qed.

(** C6 (amended). The monetary check has the fixed bounds 0 and
    999999999.99, the lower one exclusive and the upper one inclusive: a
    value [v] is accepted exactly when [0 < v <= 999999999.99], rejected
    as too low when [v <= 0] and as too high when [v > 999999999.99]; an
    absent value is passed through. *)
Theorem amount_bounds :
  (forall v : Q,
      (FinanceiroForm.clean_valor (Some v) = Ret (Some v)
       <-> (0 < v /\ v <= valor_maximo)%Q)
      /\ ((v <= 0)%Q ->
          FinanceiroForm.clean_valor (Some v)
          = Invalid FinanceiroForm.Valor_maior_que_zero)
      /\ ((valor_maximo < v)%Q ->
          FinanceiroForm.clean_valor (Some v)
          = Invalid FinanceiroForm.Valor_muito_alto))
  /\ (forall v : Q,
      (OrcamentoForm.clean_valor_total (Some v) = Ret (Some v)
       <-> (0 < v /\ v <= valor_maximo)%Q)
      /\ ((v <= 0)%Q ->
          OrcamentoForm.clean_valor_total (Some v)
          = Invalid OrcamentoForm.Valor_total_maior_que_zero)
      /\ ((valor_maximo < v)%Q ->
          OrcamentoForm.clean_valor_total (Some v)
          = Invalid OrcamentoForm.Valor_total_muito_alto))
  /\ FinanceiroForm.clean_valor None = Ret None
  /\ OrcamentoForm.clean_valor_total None = Ret None.
Proof.
  split; [|split; [|split; reflexivity]]; intros v;
    unfold FinanceiroForm.clean_valor, OrcamentoForm.clean_valor_total.
  - destruct (Qle_bool v 0) eqn:E0.
    + apply Qle_bool_iff in E0. split; [|split].
      * split; [discriminate|]. intros [L _].
        exfalso. apply (Qlt_not_le _ _ L E0).
      * reflexivity.
      * intros L. exfalso. apply (Qlt_not_le _ _ L).
        apply Qle_trans with 0%Q; [exact E0 | discriminate].
    + apply Qle_bool_false in E0.
      destruct (Qle_bool v valor_maximo) eqn:E1; cbn [negb].
      * apply Qle_bool_iff in E1. split; [|split].
        -- split; [intros _; split; assumption | reflexivity].
        -- intros L. exfalso. apply (Qlt_not_le _ _ E0 L).
        -- intros L. exfalso. apply (Qlt_not_le _ _ L E1).
      * apply Qle_bool_false in E1. split; [|split].
        -- split; [discriminate|]. intros [_ L].
           exfalso. apply (Qlt_not_le _ _ E1 L).
        -- intros L. exfalso. apply (Qlt_not_le _ _ E0 L).
        -- reflexivity.
  - destruct (Qle_bool v 0) eqn:E0.
    + apply Qle_bool_iff in E0. split; [|split].
      * split; [discriminate|]. intros [L _].
        exfalso. apply (Qlt_not_le _ _ L E0).
      * reflexivity.
      * intros L. exfalso. apply (Qlt_not_le _ _ L).
        apply Qle_trans with 0%Q; [exact E0 | discriminate].
    + apply Qle_bool_false in E0.
      destruct (Qle_bool v valor_maximo) eqn:E1; cbn [negb].
      * apply Qle_bool_iff in E1. split; [|split].
        -- split; [intros _; split; assumption | reflexivity].
        -- intros L. exfalso. apply (Qlt_not_le _ _ E0 L).
        -- intros L. exfalso. apply (Qlt_not_le _ _ L E1).
      * apply Qle_bool_false in E1. split; [|split].
        -- split; [discriminate|]. intros [_ L].
           exfalso. apply (Qlt_not_le _ _ E1 L).
        -- intros L. exfalso. apply (Qlt_not_le _ _ E0 L).
        -- reflexivity.
Qed.

Lemma amount_bounds_witness :
  FinanceiroForm.clean_valor (Some (-1)%Q)
  = Invalid FinanceiroForm.Valor_maior_que_zero
  /\ FinanceiroForm.clean_valor (Some 1000000000%Q)
     = Invalid FinanceiroForm.Valor_muito_alto
  /\ OrcamentoForm.clean_valor_total (Some (-1)%Q)
     = Invalid OrcamentoForm.Valor_total_maior_que_zero
  /\ OrcamentoForm.clean_valor_total (Some 1000000000%Q)
     = Invalid OrcamentoForm.Valor_total_muito_alto.
Proof.
  split; [|split; [|split]].
  - apply (proj1 amount_bounds (-1)%Q). discriminate.
  - apply (proj1 amount_bounds 1000000000%Q). reflexivity.
  - apply (proj1 (proj2 amount_bounds) (-1)%Q). discriminate.
  - apply (proj1 (proj2 amount_bounds) 1000000000%Q). reflexivity.
Defined.

(* ================================================================== *)
(** ** The cross-field rules of [clean] *)

Lemma cliente_ne_false (a b : Cliente) :
  cliente_ne a b = false <-> cliente_pk a = cliente_pk b.
Proof.
  unfold cliente_ne. rewrite negb_false_iff. apply Z.eqb_eq.
Qed.

Lemma cliente_ne_true (a b : Cliente) :
  cliente_ne a b = true <-> cliente_pk a <> cliente_pk b.
Proof.
  unfold cliente_ne. rewrite negb_true_iff. apply Z.eqb_neq.
Qed.

Lemma is_pago_iff (status : option str) :
  FinanceiroForm.is_pago status = true <-> status = Some (lit "pago").
Proof.
  destruct status as [s|]; simpl.
  - rewrite str_eqb_eq. split; [intros ->; reflexivity | congruence].
  - split; discriminate.
Qed.

Lemma present_iff {A : Type} (x : option A) : present x = true <-> x <> None.
Proof. destruct x; simpl; split; congruence. Qed.

(** The claim C7 as the specification has it fails twice.  On the
    financial form, with a paid status and no payment date, a case whose
    client is not the supplied one is rejected for the missing payment
    date, not as an inconsistent link.  And the upload form of the
    documents accepts a case with a client that is not its own. *)
Lemma link_mismatch_reported_as_missing_payment_date :
  let a := {| cliente_pk := 1; cpf_cnpj := lit "11144477735" |} in
  let b := {| cliente_pk := 2; cpf_cnpj := lit "11222333000181" |} in
  let p := {| processo_pk := 7; Models.cliente := a |} in
  let cd := {| FinanceiroForm.status := Some (lit "pago");
               FinanceiroForm.data_pagamento := None;
               FinanceiroForm.processo := Some p;
               FinanceiroForm.cliente := Some b |} in
  let up := {| DocumentoForm.processo := Some p;
               DocumentoForm.cliente := Some b |} in
  cliente_pk a <> cliente_pk b
  /\ FinanceiroForm.clean cd
     = Invalid FinanceiroForm.Data_pagamento_obrigatoria
  /\ FinanceiroForm.clean cd <> Invalid FinanceiroForm.Cliente_nao_corresponde
  /\ DocumentoUploadForm.clean up = Ret up.
Proof.
  cbv zeta.
  split; [discriminate | split; [reflexivity | split;
                                   [discriminate | reflexivity]]].
Qed.

(** C7 (amended). When both a case and a client are supplied, the
    financial form, the document form and the appointment form accept
    only if the client of the case is the supplied client, and reject
    when they differ.  The document and the appointment form then
    reject with the inconsistent-link message.  The financial form does
    so when its paid-status and payment-date checks, which come first,
    have passed; when the status is 'pago' and no payment date is
    supplied it reports the missing payment date, and when a payment date
    is supplied with another status it reports that the status must be
    'pago'.  The upload form of the documents makes no such check: it
    accepts every case together with every client. *)
Theorem consistent_link :
  (forall (p : Processo) (c : Cliente),
      let cd := {| DocumentoForm.processo := Some p;
                   DocumentoForm.cliente := Some c |} in
      ((exists r, DocumentoForm.clean cd = Ret r) ->
       cliente_pk (Models.cliente p) = cliente_pk c)
      /\ (cliente_pk (Models.cliente p) <> cliente_pk c ->
          DocumentoForm.clean cd
          = Invalid DocumentoForm.Cliente_nao_corresponde))
  /\ (forall (p : Processo) (c : Cliente),
      let cd := {| AgendaForm.processo := Some p;
                   AgendaForm.cliente := Some c |} in
      ((exists r, AgendaForm.clean cd = Ret r) ->
       cliente_pk (Models.cliente p) = cliente_pk c)
      /\ (cliente_pk (Models.cliente p) <> cliente_pk c ->
          AgendaForm.clean cd = Invalid AgendaForm.Cliente_nao_corresponde))
  /\ (forall (st : option str) (dp : option date)
             (p : Processo) (c : Cliente),
      let cd := {| FinanceiroForm.status := st;
                   FinanceiroForm.data_pagamento := dp;
                   FinanceiroForm.processo := Some p;
                   FinanceiroForm.cliente := Some c |} in
      ((exists r, FinanceiroForm.clean cd = Ret r) ->
       cliente_pk (Models.cliente p) = cliente_pk c)
      /\ (cliente_pk (Models.cliente p) <> cliente_pk c ->
          (exists m, FinanceiroForm.clean cd = Invalid m)
          /\ (FinanceiroForm.is_pago st = present dp ->
              FinanceiroForm.clean cd
              = Invalid FinanceiroForm.Cliente_nao_corresponde)
          /\ (st = Some (lit "pago") -> dp = None ->
              FinanceiroForm.clean cd
              = Invalid FinanceiroForm.Data_pagamento_obrigatoria)
          /\ (dp <> None -> st <> Some (lit "pago") ->
              FinanceiroForm.clean cd
              = Invalid FinanceiroForm.Status_deve_ser_pago)))
  /\ (forall (p : Processo) (c : Cliente),
      let cd := {| DocumentoForm.processo := Some p;
                   DocumentoForm.cliente := Some c |} in
      DocumentoUploadForm.clean cd = Ret cd).
Proof.
  split; [|split; [|split]].
  - intros p c cd. subst cd. unfold DocumentoForm.clean. cbn.
    destruct (cliente_ne (Models.cliente p) c) eqn:E.
    + apply cliente_ne_true in E. split.
      * intros [r Hr]. discriminate Hr.
      * reflexivity.
    + apply cliente_ne_false in E. split.
      * intros _. exact E.
      * intros N. contradiction.
  - intros p c cd. subst cd. unfold AgendaForm.clean. cbn.
    destruct (cliente_ne (Models.cliente p) c) eqn:E.
    + apply cliente_ne_true in E. split.
      * intros [r Hr]. discriminate Hr.
      * reflexivity.
    + apply cliente_ne_false in E. split.
      * intros _. exact E.
      * intros N. contradiction.
  - intros st dp p c cd. subst cd.
    rewrite <- is_pago_iff, <- present_iff.
    unfold FinanceiroForm.clean.
    cbn [FinanceiroForm.status FinanceiroForm.data_pagamento
         FinanceiroForm.processo FinanceiroForm.cliente].
    destruct (cliente_ne (Models.cliente p) c) eqn:E.
    + apply cliente_ne_true in E.
      destruct (FinanceiroForm.is_pago st), dp as [d|];
        cbn [present andb negb]; split;
        try (intros [r Hr]; discriminate Hr);
        intros _; (split; [eexists; reflexivity|]);
        (split; [|split]); intros H1; try intros H2;
        try reflexivity; try discriminate; congruence.
    + apply cliente_ne_false in E. split.
      * intros _. exact E.
      * intros N. contradiction.
  - intros p c. reflexivity.
Qed.

Lemma consistent_link_witness :
  let a := {| cliente_pk := 1; cpf_cnpj := lit "11144477735" |} in
  let b := {| cliente_pk := 2; cpf_cnpj := lit "11222333000181" |} in
  let p := {| processo_pk := 7; Models.cliente := a |} in
  DocumentoForm.clean {| DocumentoForm.processo := Some p;
                         DocumentoForm.cliente := Some b |}
  = Invalid DocumentoForm.Cliente_nao_corresponde
  /\ AgendaForm.clean {| AgendaForm.processo := Some p;
                         AgendaForm.cliente := Some b |}
     = Invalid AgendaForm.Cliente_nao_corresponde
  /\ FinanceiroForm.clean {| FinanceiroForm.status := Some (lit "pendente");
                             FinanceiroForm.data_pagamento := None;
                             FinanceiroForm.processo := Some p;
                             FinanceiroForm.cliente := Some b |}
     = Invalid FinanceiroForm.Cliente_nao_corresponde
  /\ FinanceiroForm.clean {| FinanceiroForm.status := Some (lit "pago");
                             FinanceiroForm.data_pagamento := None;
                             FinanceiroForm.processo := Some p;
                             FinanceiroForm.cliente := Some b |}
     = Invalid FinanceiroForm.Data_pagamento_obrigatoria
  /\ FinanceiroForm.clean {| FinanceiroForm.status := Some (lit "pendente");
                             FinanceiroForm.data_pagamento := Some 739000%Z;
                             FinanceiroForm.processo := Some p;
                             FinanceiroForm.cliente := Some b |}
     = Invalid FinanceiroForm.Status_deve_ser_pago.
Proof.
  cbv zeta. split; [|split; [|split; [|split]]].
  - apply (proj1 consistent_link). discriminate.
  - apply (proj1 (proj2 consistent_link)). discriminate.
  - apply (proj1 (proj2 (proj2 consistent_link))
             (Some (lit "pendente")) None).
    + discriminate.
    + reflexivity.
  - apply (proj1 (proj2 (proj2 consistent_link))
             (Some (lit "pago")) None).
    + discriminate.
    + reflexivity.
    + reflexivity.
  - apply (proj1 (proj2 (proj2 consistent_link))
             (Some (lit "pendente")) (Some 739000%Z)).
    + discriminate.
    + discriminate.
    + discriminate.
Defined.

(** C10. The financial form accepts only if the status is 'pago'
    exactly when a payment date is supplied: a 'pago' status with no
    payment date is rejected, and so is a payment date with any other
    status. *)
Theorem paid_status_and_payment_date :
  forall cd : FinanceiroForm.cleaned_data,
    ((exists r, FinanceiroForm.clean cd = Ret r) ->
     (FinanceiroForm.status cd = Some (lit "pago")
      <-> FinanceiroForm.data_pagamento cd <> None))
    /\ (FinanceiroForm.status cd = Some (lit "pago") ->
        FinanceiroForm.data_pagamento cd = None ->
        FinanceiroForm.clean cd
        = Invalid FinanceiroForm.Data_pagamento_obrigatoria)
    /\ (FinanceiroForm.data_pagamento cd <> None ->
        FinanceiroForm.status cd <> Some (lit "pago") ->
        FinanceiroForm.clean cd = Invalid FinanceiroForm.Status_deve_ser_pago).
Proof.
  intros cd. rewrite <- is_pago_iff, <- present_iff.
  unfold FinanceiroForm.clean.
  destruct (FinanceiroForm.is_pago (FinanceiroForm.status cd)) eqn:Es;
    destruct (FinanceiroForm.data_pagamento cd) as [dp|] eqn:Ed;
    cbn [present andb negb]; (split; [|split]);
    try (intros [r Hr]; discriminate Hr);
    try (intros _; tauto);
    try (intros H1 H2; congruence);
    try reflexivity.
Qed.

Lemma paid_status_and_payment_date_witness :
  let c := {| cliente_pk := 1; cpf_cnpj := lit "11144477735" |} in
  FinanceiroForm.clean {| FinanceiroForm.status := Some (lit "pago");
                          FinanceiroForm.data_pagamento := None;
                          FinanceiroForm.processo := None;
                          FinanceiroForm.cliente := Some c |}
  = Invalid FinanceiroForm.Data_pagamento_obrigatoria
  /\ FinanceiroForm.clean {| FinanceiroForm.status := Some (lit "pendente");
                             FinanceiroForm.data_pagamento := Some 739000%Z;
                             FinanceiroForm.processo := None;
                             FinanceiroForm.cliente := Some c |}
     = Invalid FinanceiroForm.Status_deve_ser_pago.
Proof.
  cbv zeta. split.
  - apply paid_status_and_payment_date; reflexivity.
  - apply paid_status_and_payment_date; discriminate.
Defined.

(* ================================================================== *)
(** ** The CNPJ cleaner of the system configuration *)

Lemma len_set_one (s : str) :
  len_set s = 1 -> forall a b, In a s -> In b s -> a = b.
Proof.
  unfold len_set. intros H a b Ha Hb.
  apply (nodup_In ascii_dec) in Ha, Hb.
  destruct (nodup ascii_dec s) as [|c [|c' l]]; try discriminate H.
  destruct Ha as [<-|[]], Hb as [<-|[]]. reflexivity.
Qed.

Lemma two_distinct_len_set (s : str) :
  Spec.two_distinct s -> (len_set s =? 1) = false.
Proof.
  intros (a & b & Ha & Hb & Hab). apply Nat.eqb_neq. intros H.
  apply Hab. apply (len_set_one s H a b Ha Hb).
Qed.

Lemma length_14 (s : str) :
  List.length s = 14 ->
  exists c0 c1 c2 c3 c4 c5 c6 c7 c8 c9 c10 c11 c12 c13,
    s = [c0; c1; c2; c3; c4; c5; c6; c7; c8; c9; c10; c11; c12; c13].
Proof.
  intros H.
  do 14 (destruct s as [|? s]; [discriminate H|]).
  destruct s; [|discriminate H].
  repeat eexists.
Qed.

(** C9. The CNPJ cleaner of the system configuration verifies no check
    digit: every input whose stripped digits are 14 characters, two of
    them distinct, is accepted and returned as DD.DDD.DDD/DDDD-DD.  The
    input 11222333000199, whose last two digits the check-digit
    algorithm refuses, is among them. *)
Theorem config_cnpj_unchecked :
  (forall raw : str,
      List.length (join_filter_isdigit raw) = 14 ->
      Spec.two_distinct (join_filter_isdigit raw) ->
      exists v,
        Spec.cnpj_punctuated (join_filter_isdigit raw) = Some v
        /\ ConfiguracaoForm.clean_cnpj raw = Ret v)
  /\ (ClienteForm._validar_cnpj (lit "11222333000199") = Ret false
      /\ validate_tax_id (lit "11222333000199")
         = Invalid ClienteForm.CNPJ_invalido
      /\ ConfiguracaoForm.clean_cnpj (lit "11222333000199")
         = Ret (lit "11.222.333/0001-99")).
Proof.
  split.
  - intros raw H Hd. unfold ConfiguracaoForm.clean_cnpj.
    destruct raw as [|c raw']; [discriminate H|]. cbn [truthy].
    unfold len. rewrite H. cbn [Nat.eqb negb].
    rewrite (two_distinct_len_set _ Hd).
    destruct (length_14 _ H)
      as (c0&c1&c2&c3&c4&c5&c6&c7&c8&c9&c10&c11&c12&c13&->).
    eexists. split; reflexivity.
  - split; [|split]; vm_compute; reflexivity.
Qed.

Lemma config_cnpj_unchecked_witness :
  exists v,
    Spec.cnpj_punctuated (join_filter_isdigit (lit "12.345.678/0001-00"))
    = Some v
    /\ ConfiguracaoForm.clean_cnpj (lit "12.345.678/0001-00") = Ret v.
Proof.
  apply (proj1 config_cnpj_unchecked (lit "12.345.678/0001-00")).
  - reflexivity.
  - exists "1"%char, "2"%char. simpl.
    split; [tauto | split; [tauto | discriminate]].
Defined.

(* ================================================================== *)
(** ** Formatted values and the validators of their columns *)

(** Splits a list of known length into its elements. *)
Ltac explode d H :=
  repeat (destruct d as [|? d]; cbn [List.length] in H; try discriminate H).

(** Collects the facts [is_decimal c = true] of a [Forall]. *)
Ltac forall_inv :=
  repeat match goal with
         | H : Forall _ (_ :: _) |- _ => inversion H; clear H; subst
         | H : Forall _ [] |- _ => clear H
         end.

Lemma match_atoms_digit (p : list atom) (c : ascii) (s : str) :
  is_decimal c = true -> match_atoms (Digit :: p) (c :: s) = match_atoms p s.
Proof. intros H. cbn [match_atoms]. rewrite H. reflexivity. Qed.

Lemma match_atoms_chr (p : list atom) (c : ascii) (s : str) :
  match_atoms (Chr c :: p) (c :: s) = match_atoms p s.
Proof.
  cbn [match_atoms]. unfold chr_eqb. rewrite Ascii.eqb_refl. reflexivity.
Qed.

Lemma strip_cons_digit (c : ascii) (s : str) :
  is_decimal c = true -> re_sub_nondigit (c :: s) = c :: re_sub_nondigit s.
Proof. intros H. unfold re_sub_nondigit. cbn [filter]. rewrite H. reflexivity. Qed.

Lemma strip_cons_other (c : ascii) (s : str) :
  is_decimal c = false -> re_sub_nondigit (c :: s) = re_sub_nondigit s.
Proof. intros H. unfold re_sub_nondigit. cbn [filter]. rewrite H. reflexivity. Qed.

(** Matches a pattern against a string of literal characters and of
    characters known to be digits. *)
Ltac match_pattern :=
  repeat first [ rewrite match_atoms_chr
               | rewrite match_atoms_digit by assumption ].

(** Strips such a string. *)
Ltac strip_digits :=
  repeat first [ rewrite strip_cons_digit by assumption
               | rewrite strip_cons_other by reflexivity ].

(** What [clean_telefone] returns, by the number of digits of a
    non-empty input. *)
Lemma clean_telefone_cases (raw : str) :
  raw <> [] ->
  let d := re_sub_nondigit raw in
  (len d < 10 /\ ClienteForm.clean_telefone raw
                 = Invalid ClienteForm.Telefone_curto)
  \/ (exists c0 c1 c2 c3 c4 c5 c6 c7 c8 c9,
         d = [c0; c1; c2; c3; c4; c5; c6; c7; c8; c9]
         /\ ClienteForm.clean_telefone raw
            = Ret ["("; c0; c1; ")"; " "; c2; c3; c4; c5; "-";
                   c6; c7; c8; c9]%char)
  \/ (exists c0 c1 c2 c3 c4 c5 c6 c7 c8 c9 c10,
         d = [c0; c1; c2; c3; c4; c5; c6; c7; c8; c9; c10]
         /\ ClienteForm.clean_telefone raw
            = Ret ["("; c0; c1; ")"; " "; c2; c3; c4; c5; c6; "-";
                   c7; c8; c9; c10]%char)
  \/ (11 < len d /\ ClienteForm.clean_telefone raw
                    = Invalid ClienteForm.Telefone_tamanho).
Proof.
  intros Hraw d. unfold ClienteForm.clean_telefone. fold d.
  destruct raw as [|c raw']; [congruence|]. cbn [truthy].
  destruct (len d <? 10) eqn:E1.
  { left. apply Nat.ltb_lt in E1. split; [exact E1 | reflexivity]. }
  apply Nat.ltb_ge in E1.
  destruct (len d =? 10) eqn:E2.
  { right; left. apply Nat.eqb_eq in E2. unfold len in E2.
    clearbody d. explode d E2. repeat eexists. }
  destruct (len d =? 11) eqn:E3.
  { right; right; left. apply Nat.eqb_eq in E3. unfold len in E3.
    clearbody d. explode d E3. repeat eexists. }
  right; right; right. apply Nat.eqb_neq in E2, E3.
  split; [lia | reflexivity].
Qed.

(** X1. Whatever the phone cleaner of the client form accepts from a
    non-empty input passes the validator of the column
    [Cliente.telefone]. *)
Theorem clean_telefone_passes_column_validator :
  forall raw v : str,
    raw <> [] ->
    ClienteForm.clean_telefone raw = Ret v ->
    ClienteModel.telefone_validator v = true.
Proof.
  intros raw v Hraw H.
  pose proof (re_sub_nondigit_decimal raw) as F.
  destruct (clean_telefone_cases raw Hraw)
    as [[_ E]|[(c0&c1&c2&c3&c4&c5&c6&c7&c8&c9&Hd&E)
       |[(c0&c1&c2&c3&c4&c5&c6&c7&c8&c9&c10&Hd&E)|[_ E]]]];
    rewrite E in H; try discriminate H; injection H as <-;
    rewrite Hd in F; forall_inv;
    unfold ClienteModel.telefone_validator, ClienteModel.telefone_area.
  - match_pattern. cbn [match_atoms].
    unfold anchored, ClienteModel.telefone_number4.
    match_pattern. cbn [match_atoms at_end].
    rewrite orb_true_r. reflexivity.
  - match_pattern. cbn [match_atoms].
    unfold anchored, ClienteModel.telefone_number5.
    match_pattern. cbn [match_atoms at_end]. reflexivity.
Qed.

Lemma clean_telefone_passes_column_validator_witness :
  ClienteModel.telefone_validator (lit "(11) 98765-4321") = true.
Proof.
  apply (clean_telefone_passes_column_validator (lit "11 98765 4321")).
  - discriminate.
  - reflexivity.
Defined.

(** X2. The phone cleaner of the client form keeps the digits of what
    it accepts and is idempotent: cleaning a value it returned returns
    that value. *)
Theorem clean_telefone_idempotent :
  forall raw v : str,
    ClienteForm.clean_telefone raw = Ret v ->
    re_sub_nondigit v = re_sub_nondigit raw
    /\ ClienteForm.clean_telefone v = Ret v.
Proof.
  intros raw v H.
  destruct raw as [|c raw'].
  { injection H as <-. split; reflexivity. }
  set (raw := c :: raw') in *.
  assert (raw <> []) as Hraw by discriminate.
  pose proof (re_sub_nondigit_decimal raw) as F.
  destruct (clean_telefone_cases raw Hraw)
    as [[_ E]|[(c0&c1&c2&c3&c4&c5&c6&c7&c8&c9&Hd&E)
       |[(c0&c1&c2&c3&c4&c5&c6&c7&c8&c9&c10&Hd&E)|[_ E]]]];
    rewrite E in H; try discriminate H; injection H as <-;
    rewrite Hd in F |- *; forall_inv.
  - assert (re_sub_nondigit
              ["("; c0; c1; ")"; " "; c2; c3; c4; c5; "-"; c6; c7; c8; c9]%char
            = [c0; c1; c2; c3; c4; c5; c6; c7; c8; c9]) as S
        by (strip_digits; reflexivity).
    split; [exact S|].
    unfold ClienteForm.clean_telefone. cbn [truthy]. rewrite S. reflexivity.
  - assert (re_sub_nondigit
              ["("; c0; c1; ")"; " "; c2; c3; c4; c5; c6; "-";
               c7; c8; c9; c10]%char
            = [c0; c1; c2; c3; c4; c5; c6; c7; c8; c9; c10]) as S
        by (strip_digits; reflexivity).
    split; [exact S|].
    unfold ClienteForm.clean_telefone. cbn [truthy]. rewrite S. reflexivity.
Qed.

Lemma clean_telefone_idempotent_witness :
  re_sub_nondigit (lit "(11) 9876-5432") = re_sub_nondigit (lit "11-9876.5432")
  /\ ClienteForm.clean_telefone (lit "(11) 9876-5432")
     = Ret (lit "(11) 9876-5432").
Proof.
  apply (clean_telefone_idempotent (lit "11-9876.5432")). reflexivity.
Defined.

(** What [clean_cep] returns on a non-empty input. *)
Lemma clean_cep_cases (raw : str) :
  raw <> [] ->
  let d := re_sub_nondigit raw in
  (len d <> 8 /\ ClienteFormFields.clean_cep raw
                 = Invalid ClienteFormFields.Cep_tamanho)
  \/ (exists c0 c1 c2 c3 c4 c5 c6 c7,
         d = [c0; c1; c2; c3; c4; c5; c6; c7]
         /\ ClienteFormFields.clean_cep raw
            = Ret [c0; c1; c2; c3; c4; "-"; c5; c6; c7]%char).
Proof.
  intros Hraw d. unfold ClienteFormFields.clean_cep. fold d.
  destruct raw as [|c raw']; [congruence|]. cbn [truthy].
  destruct (len d =? 8) eqn:E; cbn [negb].
  - right. apply Nat.eqb_eq in E. unfold len in E.
    clearbody d. explode d E. repeat eexists.
  - left. apply Nat.eqb_neq in E. split; [exact E | reflexivity].
Qed.

(** X3. The postal-code cleaner accepts a non-empty input exactly when
    it holds eight digits, and what it then returns passes the validator
    of the column [Cliente.cep]. *)
Theorem clean_cep_passes_column_validator :
  forall raw : str,
    raw <> [] ->
    ((exists v, ClienteFormFields.clean_cep raw = Ret v)
     <-> List.length (re_sub_nondigit raw) = 8)
    /\ (List.length (re_sub_nondigit raw) <> 8 ->
        ClienteFormFields.clean_cep raw
        = Invalid ClienteFormFields.Cep_tamanho)
    /\ (forall v, ClienteFormFields.clean_cep raw = Ret v ->
                  ClienteModel.cep_validator v = true).
Proof.
  intros raw Hraw.
  pose proof (re_sub_nondigit_decimal raw) as F.
  destruct (clean_cep_cases raw Hraw)
    as [[N E]|(c0&c1&c2&c3&c4&c5&c6&c7&Hd&E)]; rewrite E.
  - split; [|split].
    + split; [intros [v Hv]; discriminate Hv | intros L; contradiction].
    + reflexivity.
    + intros v Hv. discriminate Hv.
  - rewrite Hd in F |- *. forall_inv. split; [|split].
    + split; [reflexivity | intros _; eexists; reflexivity].
    + intros N. exfalso. apply N. reflexivity.
    + intros v Hv. injection Hv as <-.
      unfold ClienteModel.cep_validator, anchored, ClienteModel.cep_pattern.
      match_pattern. reflexivity.
Qed.

Lemma clean_cep_passes_column_validator_witness :
  ClienteFormFields.clean_cep (lit "1310100")
  = Invalid ClienteFormFields.Cep_tamanho.
Proof.
  apply (clean_cep_passes_column_validator (lit "1310100")).
  - discriminate.
  - simpl. lia.
Defined.

(** X4. The postal-code cleaner keeps the digits of what it accepts and
    is idempotent. *)
Theorem clean_cep_idempotent :
  forall raw v : str,
    ClienteFormFields.clean_cep raw = Ret v ->
    re_sub_nondigit v = re_sub_nondigit raw
    /\ ClienteFormFields.clean_cep v = Ret v.
Proof.
  intros raw v H.
  destruct raw as [|c raw'].
  { injection H as <-. split; reflexivity. }
  set (raw := c :: raw') in *.
  assert (raw <> []) as Hraw by discriminate.
  pose proof (re_sub_nondigit_decimal raw) as F.
  destruct (clean_cep_cases raw Hraw)
    as [[N E]|(c0&c1&c2&c3&c4&c5&c6&c7&Hd&E)];
    rewrite E in H; try discriminate H; injection H as <-.
  rewrite Hd in F |- *. forall_inv.
  assert (re_sub_nondigit [c0; c1; c2; c3; c4; "-"; c5; c6; c7]%char
          = [c0; c1; c2; c3; c4; c5; c6; c7]) as S
      by (strip_digits; reflexivity).
  split; [exact S|].
  unfold ClienteFormFields.clean_cep. cbn [truthy]. rewrite S. reflexivity.
Qed.

Lemma clean_cep_idempotent_witness :
  re_sub_nondigit (lit "01310-100") = re_sub_nondigit (lit "01.310.100")
  /\ ClienteFormFields.clean_cep (lit "01310-100") = Ret (lit "01310-100").
Proof.
  apply (clean_cep_idempotent (lit "01.310.100")). reflexivity.
Defined.

(* ================================================================== *)
(** ** [Cliente.clean] and the kind of person *)

Lemma remove_chr_keep (c x : ascii) (s : str) :
  chr_eqb x c = false -> remove_chr c (x :: s) = x :: remove_chr c s.
Proof. intros H. unfold remove_chr. cbn [filter]. rewrite H. reflexivity. Qed.

Lemma remove_chr_drop (c : ascii) (s : str) :
  remove_chr c (c :: s) = remove_chr c s.
Proof.
  unfold remove_chr. cbn [filter]. unfold chr_eqb.
  rewrite Ascii.eqb_refl. reflexivity.
Qed.

Lemma decimal_chr_neq (x c : ascii) :
  is_decimal x = true -> is_decimal c = false -> chr_eqb x c = false.
Proof.
  intros Hx Hc. apply not_true_is_false. intros H.
  apply chr_eqb_eq in H. congruence.
Qed.

Lemma remove_chr_digits (c : ascii) (s : str) :
  is_decimal c = false ->
  Forall (fun x => is_decimal x = true) s -> remove_chr c s = s.
Proof.
  intros Hc. induction 1 as [|x s Hx _ IH].
  - reflexivity.
  - rewrite remove_chr_keep by (apply decimal_chr_neq; assumption).
    rewrite IH. reflexivity.
Qed.

(** Removes a punctuation character from a string of literal characters
    and of characters known to be digits. *)
Ltac remove_punctuation :=
  repeat first [ rewrite remove_chr_drop
               | rewrite remove_chr_keep
                   by (reflexivity
                       || (apply decimal_chr_neq; [assumption|reflexivity])) ].

(** X5. On a tax id that the form has accepted, [Cliente.clean] passes
    for a natural person exactly when the id has 11 digits and for a
    legal person exactly when it has 14: a CPF filed as 'PJ' or a CNPJ
    filed as 'PF' is refused. *)
Theorem model_clean_on_accepted_tax_id :
  forall (db : list Cliente) (pk : option Z) (raw v : str),
    raw <> [] ->
    ClienteForm.clean_cpf_cnpj db pk raw = Ret v ->
    (ClienteModel.clean (lit "PF") v = Ret tt <-> List.length v = 11)
    /\ (ClienteModel.clean (lit "PJ") v = Ret tt <-> List.length v = 14)
    /\ (List.length v = 14 ->
        ClienteModel.clean (lit "PF") v = Invalid ClienteModel.CPF_11_digitos)
    /\ (List.length v = 11 ->
        ClienteModel.clean (lit "PJ") v
        = Invalid ClienteModel.CNPJ_14_digitos).
Proof.
  intros db pk raw v Hraw H.
  destruct (clean_cpf_cnpj_returns_digits db pk raw v Hraw H) as [Hv Hlen].
  assert (Forall (fun x => is_decimal x = true) v) as F
      by (rewrite Hv; apply re_sub_nondigit_decimal).
  unfold ClienteModel.clean.
  rewrite !(remove_chr_digits "."%char v) by (reflexivity || assumption).
  rewrite !(remove_chr_digits "/"%char v) by (reflexivity || assumption).
  rewrite !(remove_chr_digits "-"%char v) by (reflexivity || assumption).
  cbn [str_eqb lit list_ascii_of_string chr_eqb Ascii.eqb Bool.eqb andb].
  unfold len in *.
  destruct Hlen as [E|E]; rewrite E; cbn [Nat.eqb negb andb];
    repeat split; intros; try reflexivity; try discriminate; try lia.
Qed.

Lemma model_clean_on_accepted_tax_id_witness :
  ClienteModel.clean (lit "PF") (lit "11222333000181")
  = Invalid ClienteModel.CPF_11_digitos.
Proof.
  apply (model_clean_on_accepted_tax_id [] None (lit "11.222.333/0001-81")).
  - discriminate.
  - vm_compute. reflexivity.
  - reflexivity.
Defined.

(** A value that the CPF pattern matches up to [rest]. *)
Lemma match_cpf_pattern (v rest : str) :
  match_atoms cpf_pattern v = Some rest ->
  exists d0 d1 d2 d3 d4 d5 d6 d7 d8 d9 d10,
    v = [d0; d1; d2; "."; d3; d4; d5; "."; d6; d7; d8; "-"; d9; d10]%char
        ++ rest
    /\ Forall (fun x => is_decimal x = true)
              [d0; d1; d2; d3; d4; d5; d6; d7; d8; d9; d10].
Proof.
  intros H. unfold cpf_pattern in H.
  do 14 (destruct v as [|? v]; cbn [match_atoms] in H; try discriminate H;
         match type of H with
         | (if ?b then _ else _) = _ =>
             destruct b eqn:?; try discriminate H
         end).
  cbn [match_atoms] in H. injection H as <-.
  repeat match goal with
         | E : chr_eqb _ _ = true |- _ => apply chr_eqb_eq in E; subst
         end.
  repeat eexists; repeat constructor; assumption.
Qed.

(** A value that the CNPJ pattern matches up to [rest]. *)
Lemma match_cnpj_pattern (v rest : str) :
  match_atoms cnpj_pattern v = Some rest ->
  exists d0 d1 d2 d3 d4 d5 d6 d7 d8 d9 d10 d11 d12 d13,
    v = [d0; d1; "."; d2; d3; d4; "."; d5; d6; d7; "/";
         d8; d9; d10; d11; "-"; d12; d13]%char ++ rest
    /\ Forall (fun x => is_decimal x = true)
              [d0; d1; d2; d3; d4; d5; d6; d7; d8; d9; d10; d11; d12; d13].
Proof.
  intros H. unfold cnpj_pattern in H.
  do 18 (destruct v as [|? v]; cbn [match_atoms] in H; try discriminate H;
         match type of H with
         | (if ?b then _ else _) = _ =>
             destruct b eqn:?; try discriminate H
         end).
  cbn [match_atoms] in H. injection H as <-.
  repeat match goal with
         | E : chr_eqb _ _ = true |- _ => apply chr_eqb_eq in E; subst
         end.
  repeat eexists; repeat constructor; assumption.
Qed.

(** X6. On a value in exactly one of the two punctuated formats of the
    column, [Cliente.clean] passes when the format agrees with the kind
    of person and refuses when it does not.  A CPF followed by a line
    feed still passes the validator of the column, and is refused by
    [Cliente.clean]. *)
Theorem model_clean_on_punctuated_tax_id :
  forall v : str,
    (match_atoms cpf_pattern v = Some [] ->
     ClienteModel.clean (lit "PF") v = Ret tt
     /\ ClienteModel.clean (lit "PJ") v
        = Invalid ClienteModel.CNPJ_14_digitos)
    /\ (match_atoms cnpj_pattern v = Some [] ->
        ClienteModel.clean (lit "PJ") v = Ret tt
        /\ ClienteModel.clean (lit "PF") v
           = Invalid ClienteModel.CPF_11_digitos)
    /\ (match_atoms cpf_pattern v = Some ["010"%char] ->
        cpf_cnpj_validator v = true
        /\ ClienteModel.clean (lit "PF") v
           = Invalid ClienteModel.CPF_11_digitos).
Proof.
  intros v. split; [|split]; intros H.
  - destruct (match_cpf_pattern v [] H)
      as (d0&d1&d2&d3&d4&d5&d6&d7&d8&d9&d10&->&F).
    forall_inv. unfold ClienteModel.clean. cbn [app].
    remove_punctuation. split; reflexivity.
  - destruct (match_cnpj_pattern v [] H)
      as (d0&d1&d2&d3&d4&d5&d6&d7&d8&d9&d10&d11&d12&d13&->&F).
    forall_inv. unfold ClienteModel.clean. cbn [app].
    remove_punctuation. split; reflexivity.
  - split.
    + unfold cpf_cnpj_validator, anchored. rewrite H. reflexivity.
    + destruct (match_cpf_pattern v _ H)
        as (d0&d1&d2&d3&d4&d5&d6&d7&d8&d9&d10&->&F).
      forall_inv. unfold ClienteModel.clean. cbn [app].
      remove_punctuation. reflexivity.
Qed.

Lemma model_clean_on_punctuated_tax_id_witness :
  (ClienteModel.clean (lit "PF") (lit "111.444.777-35") = Ret tt
   /\ ClienteModel.clean (lit "PJ") (lit "111.444.777-35")
      = Invalid ClienteModel.CNPJ_14_digitos)
  /\ (ClienteModel.clean (lit "PJ") (lit "11.222.333/0001-81") = Ret tt
      /\ ClienteModel.clean (lit "PF") (lit "11.222.333/0001-81")
         = Invalid ClienteModel.CPF_11_digitos).
Proof.
  split.
  - apply (proj1 (model_clean_on_punctuated_tax_id (lit "111.444.777-35"))).
    reflexivity.
  - apply (proj1 (proj2 (model_clean_on_punctuated_tax_id
                           (lit "11.222.333/0001-81")))).
    reflexivity.
Defined.

(* ================================================================== *)
(** ** The CNPJ cleaner of the configuration, continued *)

Lemma decimal_isdigit (c : ascii) : is_decimal c = true -> str_isdigit c = true.
Proof. intros H. unfold str_isdigit. rewrite H. reflexivity. Qed.

Lemma join_cons_digit (c : ascii) (s : str) :
  str_isdigit c = true ->
  join_filter_isdigit (c :: s) = c :: join_filter_isdigit s.
Proof.
  intros H. unfold join_filter_isdigit. cbn [filter]. rewrite H. reflexivity.
Qed.

Lemma join_cons_other (c : ascii) (s : str) :
  str_isdigit c = false ->
  join_filter_isdigit (c :: s) = join_filter_isdigit s.
Proof.
  intros H. unfold join_filter_isdigit. cbn [filter]. rewrite H. reflexivity.
Qed.

Lemma join_filter_isdigit_digits (s : str) :
  Forall (fun c => str_isdigit c = true) (join_filter_isdigit s).
Proof.
  apply Forall_forall; intros c H. apply filter_In in H; tauto.
Qed.

(** Filters the digits of a string of literal characters and of
    characters known to be digits. *)
Ltac join_digits :=
  repeat first [ rewrite join_cons_digit
                   by (assumption || (apply decimal_isdigit; assumption))
               | rewrite join_cons_other by reflexivity ].

(** A string whose characters are all equal is its first character
    repeated. *)
Lemma all_equal_repeat (s : str) :
  (forall a b, In a s -> In b s -> a = b) ->
  s = repeat (hd "0"%char s) (List.length s).
Proof.
  intros H. destruct s as [|c s]; [reflexivity|].
  cbn [hd List.length repeat]. f_equal.
  assert (forall x, In x s -> x = c) as Hc
      by (intros x Hx; apply H; [right; exact Hx | left; reflexivity]).
  clear H. induction s as [|x s IH]; [reflexivity|].
  cbn [List.length repeat]. f_equal.
  - apply Hc. left. reflexivity.
  - apply IH. intros y Hy. apply Hc. right. exact Hy.
Qed.

Lemma str_eqb_false (s t : str) : str_eqb s t = false -> s <> t.
Proof. intros H E. apply str_eqb_eq in E. congruence. Qed.

Lemma not_repeated_len_set (s : str) (n : nat) :
  List.length s = n ->
  str_eqb s (repeat (hd "0"%char s) n) = false ->
  (len_set s =? 1) = false.
Proof.
  intros Hn Hs. apply Nat.eqb_neq. intros H1.
  apply str_eqb_false in Hs. apply Hs. subst n.
  apply all_equal_repeat. apply len_set_one. exact H1.
Qed.

(** X7. Applied to a CNPJ that the tax-id validator has accepted, the
    CNPJ cleaner of the configuration form returns its punctuated form
    DD.DDD.DDD/DDDD-DD; that form passes the validator of the column
    [Cliente.cpf_cnpj], and the tax-id validator takes it back to the
    same digits. *)
Theorem config_cnpj_punctuates_accepted_tax_id :
  forall raw v : str,
    validate_tax_id raw = Ret v ->
    List.length v = 14 ->
    exists w,
      ConfiguracaoForm.clean_cnpj v = Ret w
      /\ Spec.cnpj_punctuated v = Some w
      /\ cpf_cnpj_validator w = true
      /\ validate_tax_id w = Ret v.
Proof.
  intros raw v H Hlen.
  assert (raw <> []) as Hraw.
  { intros ->. injection H as <-. discriminate Hlen. }
  destruct (clean_cpf_cnpj_returns_digits [] None raw v Hraw H) as [Hv _].
  assert (len (re_sub_nondigit raw) = 14) as E by (rewrite <- Hv; exact Hlen).
  pose proof H as H'. rewrite (validate_tax_id_len14 raw E) in H'.
  cbv zeta in H'. rewrite <- Hv in H'.
  destruct (str_eqb v (repeat (hd "0"%char v) 14)) eqn:Hrep;
    [discriminate H'|].
  pose proof (not_repeated_len_set v 14 Hlen Hrep) as Hset.
  assert (Forall (fun c => is_decimal c = true) v) as F
      by (rewrite Hv; apply re_sub_nondigit_decimal).
  clear Hrep. explode v Hlen. forall_inv.
  eexists. split; [|split; [|split]].
  - unfold ConfiguracaoForm.clean_cnpj. cbn [truthy]. join_digits.
    change (join_filter_isdigit []) with (@nil ascii).
    cbn [len List.length Nat.eqb negb]. rewrite Hset. reflexivity.
  - reflexivity.
  - unfold cpf_cnpj_validator. apply orb_true_iff. right.
    cbn [slice_to slice slice_from firstn skipn Nat.sub app lit
         list_ascii_of_string].
    unfold anchored, cnpj_pattern. match_pattern. reflexivity.
  - rewrite validate_tax_id_len14.
    + cbn [slice_to slice slice_from firstn skipn Nat.sub app lit
           list_ascii_of_string].
      strip_digits. change (re_sub_nondigit []) with (@nil ascii).
      rewrite validate_tax_id_len14 in H by exact E.
      rewrite <- Hv in H. exact H.
    + cbn [slice_to slice slice_from firstn skipn Nat.sub app lit
           list_ascii_of_string].
      strip_digits. reflexivity.
Qed.

Lemma config_cnpj_punctuates_accepted_tax_id_witness :
  exists w,
    ConfiguracaoForm.clean_cnpj (lit "11222333000181") = Ret w
    /\ Spec.cnpj_punctuated (lit "11222333000181") = Some w
    /\ cpf_cnpj_validator w = true
    /\ validate_tax_id w = Ret (lit "11222333000181").
Proof.
  apply (config_cnpj_punctuates_accepted_tax_id (lit "11.222.333/0001-81")).
  - vm_compute. reflexivity.
  - reflexivity.
Defined.

(** X8. The CNPJ cleaner of the configuration form keeps the digits of
    what it accepts and is idempotent. *)
Theorem config_cnpj_idempotent :
  forall raw v : str,
    ConfiguracaoForm.clean_cnpj raw = Ret v ->
    join_filter_isdigit v = join_filter_isdigit raw
    /\ ConfiguracaoForm.clean_cnpj v = Ret v.
Proof.
  intros raw v H.
  destruct raw as [|c raw'].
  { injection H as <-. split; reflexivity. }
  pose proof (join_filter_isdigit_digits (c :: raw')) as F.
  unfold ConfiguracaoForm.clean_cnpj in H. cbn [truthy] in H.
  remember (join_filter_isdigit (c :: raw')) as d eqn:Hd. clear Hd.
  destruct (len d =? 14) eqn:E; cbn [negb] in H; [|discriminate H].
  destruct (len_set d =? 1) eqn:Hset; [discriminate H|].
  injection H as <-. apply Nat.eqb_eq in E. unfold len in E.
  explode d E. forall_inv.
  cbn [slice_to slice slice_from firstn skipn Nat.sub app lit
       list_ascii_of_string].
  match goal with
  | |- join_filter_isdigit ?w = ?d /\ _ =>
      assert (join_filter_isdigit w = d) as S by (join_digits; reflexivity)
  end.
  split; [exact S|].
  unfold ConfiguracaoForm.clean_cnpj. cbn [truthy]. rewrite S.
  cbn [len List.length Nat.eqb negb]. rewrite Hset. reflexivity.
Qed.

Lemma config_cnpj_idempotent_witness :
  join_filter_isdigit (lit "12.345.678/0001-00")
  = join_filter_isdigit (lit "12 345 678 0001 00")
  /\ ConfiguracaoForm.clean_cnpj (lit "12.345.678/0001-00")
     = Ret (lit "12.345.678/0001-00").
Proof.
  apply (config_cnpj_idempotent (lit "12 345 678 0001 00")). reflexivity.
Defined.

(* ================================================================== *)
(** ** The three phone cleaners compared *)

Lemma join_filter_without_superscripts (s : str) :
  Forall (fun c => str_isdigit c = is_decimal c) s ->
  join_filter_isdigit s = re_sub_nondigit s.
Proof.
  intros F. unfold join_filter_isdigit, re_sub_nondigit.
  apply filter_ext_in. intros c Hc.
  rewrite Forall_forall in F. apply F. exact Hc.
Qed.

(** X9. On an input without superscript digits, the phone cleaners of
    the configuration and of the profile form return what the cleaner
    of the client form returns whenever that one accepts, and they
    reject an input as too short exactly when it does; an input of 10 or
    11 digits that they accept, the client form accepts with the same
    result. *)
Theorem phone_cleaners_agree :
  forall raw : str,
    Forall (fun c => str_isdigit c = is_decimal c) raw ->
    (forall v, ClienteForm.clean_telefone raw = Ret v ->
               ConfiguracaoForm.clean_telefone raw = Ret v
               /\ PerfilUsuarioForm.clean_telefone raw = Ret v)
    /\ (ClienteForm.clean_telefone raw = Invalid ClienteForm.Telefone_curto
        <-> ConfiguracaoForm.clean_telefone raw
            = Invalid ConfiguracaoForm.Telefone_curto)
    /\ (ClienteForm.clean_telefone raw = Invalid ClienteForm.Telefone_curto
        <-> PerfilUsuarioForm.clean_telefone raw
            = Invalid PerfilUsuarioForm.Telefone_curto)
    /\ (forall v, List.length (re_sub_nondigit raw) <= 11 ->
                  ConfiguracaoForm.clean_telefone raw = Ret v ->
                  ClienteForm.clean_telefone raw = Ret v).
Proof.
  intros raw F.
  unfold ClienteForm.clean_telefone, ConfiguracaoForm.clean_telefone,
    PerfilUsuarioForm.clean_telefone.
  rewrite (join_filter_without_superscripts raw F).
  assert (forall (M N : Type) (a b : str),
             @Ret M str a = Ret b -> @Ret N str a = Ret b) as same
      by (intros M N a b H; injection H as <-; reflexivity).
  destruct raw as [|c raw'].
  { cbn [truthy]. repeat split; intros; try discriminate;
      eapply same; eassumption. }
  cbn [truthy]. remember (re_sub_nondigit (c :: raw')) as d eqn:Hd. clear Hd.
  unfold len.
  destruct (List.length d <? 10) eqn:E1.
  { repeat split; intros; try discriminate; reflexivity. }
  destruct (List.length d =? 10) eqn:E2.
  { repeat split; intros; try discriminate; eapply same; eassumption. }
  destruct (List.length d =? 11) eqn:E3.
  { repeat split; intros; try discriminate; eapply same; eassumption. }
  apply Nat.ltb_ge in E1. apply Nat.eqb_neq in E2, E3.
  repeat split; intros; try discriminate; lia.
Qed.

Lemma phone_cleaners_agree_witness :
  ConfiguracaoForm.clean_telefone (lit "11 98765-4321")
  = Ret (lit "(11) 98765-4321")
  /\ PerfilUsuarioForm.clean_telefone (lit "11 98765-4321")
     = Ret (lit "(11) 98765-4321").
Proof.
  apply (proj1 (phone_cleaners_agree (lit "11 98765-4321")
                  ltac:(repeat constructor))).
  reflexivity.
Defined.

(* ================================================================== *)
(** ** The check-digit helpers on arbitrary strings *)

Lemma int_at_outcome (s : str) (i : nat) :
  i < List.length s ->
  (exists v, ClienteForm.int_at s i = Ret v)
  \/ ClienteForm.int_at s i = Crash ValueError.
Proof.
  intros Hi. unfold ClienteForm.int_at, getitem.
  destruct (nth_error s i) as [c|] eqn:E.
  - cbn [bind]. unfold int. destruct (is_decimal c).
    + left. eexists. reflexivity.
    + right. reflexivity.
  - apply nth_error_None in E. lia.
Qed.

Lemma sum_from_outcome (f : nat -> ClienteForm.result Z) (idx : list nat) :
  (forall i, In i idx ->
             (exists v, f i = Ret v) \/ f i = Crash ValueError) ->
  forall acc,
    (exists v, sum_from f idx acc = Ret v)
    \/ sum_from f idx acc = Crash ValueError.
Proof.
  induction idx as [|i idx IH]; intros Hf acc.
  - left. eexists. reflexivity.
  - cbn [sum_from].
    destruct (Hf i (or_introl eq_refl)) as [[v ->]| ->]; cbn [bind].
    + apply IH. intros j Hj. apply Hf. right. exact Hj.
    + right. reflexivity.
Qed.

(** A weighted sum of the code over indices within the string. *)
Lemma sum_outcome (s : str) (g : nat -> Z -> ClienteForm.result Z) (n : nat) :
  n <= List.length s ->
  (forall i d, i < n -> exists v, g i d = Ret v) ->
  (exists v, sum (fun i => d <- ClienteForm.int_at s i ;; g i d) (range n)
             = Ret v)
  \/ sum (fun i => d <- ClienteForm.int_at s i ;; g i d) (range n)
     = Crash ValueError.
Proof.
  intros Hn Hg. unfold sum, range. apply sum_from_outcome.
  intros i Hi. apply in_seq in Hi.
  destruct (int_at_outcome s i ltac:(lia)) as [[d ->]| ->]; cbn [bind].
  - left. apply Hg. lia.
  - right. reflexivity.
Qed.

Lemma getitem_Z_in_range (ws : list Z) (i : nat) :
  i < List.length ws ->
  exists w, @getitem_Z ClienteForm.Msg ws i = Ret w.
Proof.
  intros Hi. unfold getitem_Z.
  destruct (nth_error ws i) eqn:E.
  - eexists. reflexivity.
  - apply nth_error_None in E. lia.
Qed.

Lemma eq_first_times_nonempty (s : str) (n : nat) :
  0 < List.length s ->
  ClienteForm.eq_first_times s n
  = Ret (str_eqb s (repeat (hd "0"%char s) n)).
Proof. destruct s; simpl; [lia | reflexivity]. Qed.

(** X10. The helpers [_validar_cpf] and [_validar_cnpj], called on any
    string: one of the wrong length is answered [False]; no string makes
    them raise an [IndexError]; they end in a [ValueError] or in an
    answer, and in a [ValueError] when the string has the right length,
    is not one repeated character and does not start with a digit. *)
Theorem validar_on_any_string :
  (forall s : str,
      (List.length s <> 11 -> ClienteForm._validar_cpf s = Ret false)
      /\ ((exists b, ClienteForm._validar_cpf s = Ret b)
          \/ ClienteForm._validar_cpf s = Crash ValueError)
      /\ (List.length s = 11 -> ~ Spec.single_repeated s ->
          is_decimal (hd "0"%char s) = false ->
          ClienteForm._validar_cpf s = Crash ValueError))
  /\ (forall s : str,
      (List.length s <> 14 -> ClienteForm._validar_cnpj s = Ret false)
      /\ ((exists b, ClienteForm._validar_cnpj s = Ret b)
          \/ ClienteForm._validar_cnpj s = Crash ValueError)
      /\ (List.length s = 14 -> ~ Spec.single_repeated s ->
          is_decimal (hd "0"%char s) = false ->
          ClienteForm._validar_cnpj s = Crash ValueError)).
Proof.
  split; intros s.
  - assert (List.length s <> 11 -> ClienteForm._validar_cpf s = Ret false)
      as Hwrong.
    { intros N. unfold ClienteForm._validar_cpf, len.
      apply Nat.eqb_neq in N. rewrite N. reflexivity. }
    split; [exact Hwrong|split].
    + destruct (Nat.eq_dec (List.length s) 11) as [E|N];
        [|left; eexists; apply Hwrong; exact N].
      unfold ClienteForm._validar_cpf, len. rewrite E. cbn [Nat.eqb negb].
      rewrite eq_first_times_nonempty by lia. cbn [bind].
      destruct (str_eqb s _); [left; eexists; reflexivity|].
      assert (10 < List.length s) as L by lia.
      destruct (sum_outcome s (fun i d => Ret (d * (10 - Z.of_nat i))%Z) 9)
        as [[? ->]| ->]; cbn [bind];
        [lia | intros; eexists; reflexivity | | right; reflexivity].
      destruct (int_at_outcome s 9) as [[? ->]| ->]; cbn [bind];
        [lia | | right; reflexivity].
      destruct (negb _); [left; eexists; reflexivity|].
      destruct (sum_outcome s (fun i d => Ret (d * (11 - Z.of_nat i))%Z) 10)
        as [[? ->]| ->]; cbn [bind];
        [lia | intros; eexists; reflexivity | | right; reflexivity].
      destruct (int_at_outcome s 10) as [[? ->]| ->]; cbn [bind];
        [lia | | right; reflexivity].
      left. eexists. reflexivity.
    + intros E Hrep Hd.
      unfold ClienteForm._validar_cpf, len. rewrite E. cbn [Nat.eqb negb].
      rewrite eq_first_times_nonempty by lia. cbn [bind].
      rewrite (not_repeated_head s 11 E Hrep).
      destruct s as [|c s]; [discriminate E|]. cbn [hd] in Hd.
      unfold sum, range, ClienteForm.int_at, int.
      cbn [seq sum_from getitem nth_error bind]. rewrite Hd. reflexivity.
  - assert (List.length s <> 14 -> ClienteForm._validar_cnpj s = Ret false)
      as Hwrong.
    { intros N. unfold ClienteForm._validar_cnpj, len.
      apply Nat.eqb_neq in N. rewrite N. reflexivity. }
    split; [exact Hwrong|split].
    + destruct (Nat.eq_dec (List.length s) 14) as [E|N];
        [|left; eexists; apply Hwrong; exact N].
      unfold ClienteForm._validar_cnpj, len. rewrite E. cbn [Nat.eqb negb].
      rewrite eq_first_times_nonempty by lia. cbn [bind].
      destruct (str_eqb s _); [left; eexists; reflexivity|].
      assert (13 < List.length s) as L by lia.
      destruct (sum_outcome s
                  (fun i d => w <- getitem_Z ClienteForm.pesos1 i ;;
                              Ret (d * w)%Z) 12)
        as [[? ->]| ->]; cbn [bind];
        [ lia
        | intros i d Hi;
          destruct (getitem_Z_in_range ClienteForm.pesos1 i Hi) as [w ->];
          eexists; reflexivity
        | | right; reflexivity ].
      destruct (int_at_outcome s 12) as [[? ->]| ->]; cbn [bind];
        [lia | | right; reflexivity].
      destruct (negb _); [left; eexists; reflexivity|].
      destruct (sum_outcome s
                  (fun i d => w <- getitem_Z ClienteForm.pesos2 i ;;
                              Ret (d * w)%Z) 13)
        as [[? ->]| ->]; cbn [bind];
        [ lia
        | intros i d Hi;
          destruct (getitem_Z_in_range ClienteForm.pesos2 i Hi) as [w ->];
          eexists; reflexivity
        | | right; reflexivity ].
      destruct (int_at_outcome s 13) as [[? ->]| ->]; cbn [bind];
        [lia | | right; reflexivity].
      left. eexists. reflexivity.
    + intros E Hrep Hd.
      unfold ClienteForm._validar_cnpj, len. rewrite E. cbn [Nat.eqb negb].
      rewrite eq_first_times_nonempty by lia. cbn [bind].
      rewrite (not_repeated_head s 14 E Hrep).
      destruct s as [|c s]; [discriminate E|]. cbn [hd] in Hd.
      unfold sum, range, ClienteForm.int_at, int.
      cbn [seq sum_from getitem nth_error bind]. rewrite Hd. reflexivity.
Qed.

Lemma validar_on_any_string_witness :
  ClienteForm._validar_cpf (lit "1234") = Ret false
  /\ ClienteForm._validar_cpf (lit "x1144477735") = Crash ValueError.
Proof.
  split.
  - apply (proj1 validar_on_any_string (lit "1234")). simpl. lia.
  - apply (proj1 validar_on_any_string (lit "x1144477735")).
    + reflexivity.
    + intros [c H]. simpl in H. congruence.
    + reflexivity.
Defined.

(* ================================================================== *)
(** ** Check digits are a function of the base digits *)

Lemma weighted_sum_app (ws : list Z) :
  forall ds t : list Z,
    List.length ws <= List.length ds ->
    Spec.weighted_sum ws (ds ++ t) = Spec.weighted_sum ws ds.
Proof.
  induction ws as [|w ws IH]; intros ds t H.
  - reflexivity.
  - destruct ds as [|x ds]; [simpl in H; lia|].
    cbn [app Spec.weighted_sum]. rewrite IH by (simpl in H; lia).
    reflexivity.
Qed.

Lemma check_digit_app (ws ds t : list Z) :
  List.length ws <= List.length ds ->
  Spec.check_digit ws (ds ++ t) = Spec.check_digit ws ds.
Proof.
  intros H. unfold Spec.check_digit. rewrite weighted_sum_app by exact H.
  reflexivity.
Qed.

Lemma check_digit_range (ws ds : list Z) :
  (0 <= Spec.check_digit ws ds <= 9)%Z.
Proof.
  unfold Spec.check_digit.
  pose proof (Z.mod_pos_bound (Spec.weighted_sum ws ds) 11 ltac:(lia)) as B.
  destruct (Z.ltb_spec (Spec.weighted_sum ws ds mod 11) 2); lia.
Qed.

Lemma digit_chr_spec (v : Z) :
  (0 <= v <= 9)%Z ->
  is_decimal (Complete.digit_chr v) = true
  /\ Spec.digit_value (Complete.digit_chr v) = v.
Proof.
  intros H.
  assert (v = 0 \/ v = 1 \/ v = 2 \/ v = 3 \/ v = 4 \/ v = 5 \/ v = 6
          \/ v = 7 \/ v = 8 \/ v = 9)%Z as C by lia.
  repeat (destruct C as [->|C]; [split; reflexivity|]).
  subst v. split; reflexivity.
Qed.

Lemma digit_at_middle (ds : list Z) (x : Z) (t : list Z) :
  Spec.digit_at (ds ++ x :: t) (List.length ds) = x.
Proof. unfold Spec.digit_at. apply nth_middle. Qed.

(** What acceptance says of a stripped input of 11 digits. *)
Lemma accepted_len11 (raw : str) :
  List.length (re_sub_nondigit raw) = 11 ->
  accepted raw ->
  str_eqb (re_sub_nondigit raw)
          (repeat (hd "0"%char (re_sub_nondigit raw)) 11) = false
  /\ Spec.cpf_check_digits_ok (Spec.digits (re_sub_nondigit raw)).
Proof.
  intros E [v H]. rewrite (validate_tax_id_len11 raw E) in H.
  cbv zeta in H.
  destruct (str_eqb _ _); [discriminate H|]. cbn [negb andb] in H.
  split; [reflexivity|]. unfold Spec.cpf_check_digits_ok.
  destruct (Z.eqb_spec
              (Spec.digit_at (Spec.digits (re_sub_nondigit raw)) 9)
              (Spec.check_digit Spec.cpf_weights1
                 (Spec.digits (re_sub_nondigit raw))));
    [|discriminate H].
  destruct (Z.eqb_spec
              (Spec.digit_at (Spec.digits (re_sub_nondigit raw)) 10)
              (Spec.check_digit Spec.cpf_weights2
                 (Spec.digits (re_sub_nondigit raw))));
    [|discriminate H].
  split; assumption.
Qed.

(** What acceptance says of a stripped input of 14 digits. *)
Lemma accepted_len14 (raw : str) :
  List.length (re_sub_nondigit raw) = 14 ->
  accepted raw ->
  str_eqb (re_sub_nondigit raw)
          (repeat (hd "0"%char (re_sub_nondigit raw)) 14) = false
  /\ Spec.cnpj_check_digits_ok (Spec.digits (re_sub_nondigit raw)).
Proof.
  intros E [v H]. rewrite (validate_tax_id_len14 raw E) in H.
  cbv zeta in H.
  destruct (str_eqb _ _); [discriminate H|]. cbn [negb andb] in H.
  split; [reflexivity|]. unfold Spec.cnpj_check_digits_ok.
  destruct (Z.eqb_spec
              (Spec.digit_at (Spec.digits (re_sub_nondigit raw)) 12)
              (Spec.check_digit Spec.cnpj_weights1
                 (Spec.digits (re_sub_nondigit raw))));
    [|discriminate H].
  destruct (Z.eqb_spec
              (Spec.digit_at (Spec.digits (re_sub_nondigit raw)) 13)
              (Spec.check_digit Spec.cnpj_weights2
                 (Spec.digits (re_sub_nondigit raw))));
    [|discriminate H].
  split; assumption.
Qed.

(** The two check digits of digits [base ++ [x; y]] that satisfy the
    equations for the weights [w1] and [w2]. *)
Lemma check_digits_of_base (w1 w2 base : list Z) (x y : Z) :
  List.length w1 = List.length base ->
  List.length w2 = S (List.length base) ->
  Spec.digit_at (base ++ [x; y]) (List.length base)
  = Spec.check_digit w1 (base ++ [x; y]) ->
  Spec.digit_at (base ++ [x; y]) (S (List.length base))
  = Spec.check_digit w2 (base ++ [x; y]) ->
  x = Spec.check_digit w1 base
  /\ y = Spec.check_digit w2 (base ++ [x]).
Proof.
  intros L1 L2 H1 H2.
  rewrite digit_at_middle in H1.
  rewrite check_digit_app in H1 by lia.
  split; [exact H1|].
  change (base ++ [x; y]) with (base ++ [x] ++ [y]) in H2.
  rewrite app_assoc in H2.
  replace (S (List.length base)) with (List.length (base ++ [x])) in H2
    by (rewrite length_app; simpl; lia).
  rewrite digit_at_middle in H2.
  rewrite check_digit_app in H2 by (rewrite length_app; simpl; lia).
  exact H2.
Qed.

Lemma split_last_two (ds : list Z) (n : nat) :
  List.length ds = S (S n) ->
  exists x y, ds = firstn n ds ++ [x; y].
Proof.
  intros H.
  assert (List.length (skipn n ds) = 2) as L by (rewrite length_skipn; lia).
  destruct (skipn n ds) as [|x [|y [|z t]]] eqn:E; try discriminate L.
  exists x, y. rewrite <- E. symmetry. apply firstn_skipn.
Qed.

(** Two lists of digits with the same base that both satisfy the
    equations are equal. *)
Lemma same_base_same_digits (w1 w2 a b : list Z) (n : nat) :
  List.length w1 = n -> List.length w2 = S n ->
  List.length a = S (S n) -> List.length b = S (S n) ->
  firstn n a = firstn n b ->
  (Spec.digit_at a n = Spec.check_digit w1 a
   /\ Spec.digit_at a (S n) = Spec.check_digit w2 a) ->
  (Spec.digit_at b n = Spec.check_digit w1 b
   /\ Spec.digit_at b (S n) = Spec.check_digit w2 b) ->
  a = b.
Proof.
  intros L1 L2 La Lb Hbase [A1 A2] [B1 B2].
  destruct (split_last_two a n La) as (x & y & Ea).
  destruct (split_last_two b n Lb) as (x' & y' & Eb).
  rewrite <- Hbase in Eb.
  assert (List.length (firstn n a) = n) as Ln
      by (rewrite length_firstn; lia).
  set (base := firstn n a) in *. clearbody base.
  subst a b. clear La Lb Hbase.
  rewrite <- Ln in L1, L2, A1, A2, B1, B2.
  destruct (check_digits_of_base w1 w2 base x y L1 L2 A1 A2) as [X Y].
  destruct (check_digits_of_base w1 w2 base x' y' L1 L2 B1 B2) as [X' Y'].
  rewrite Y, Y', X, X'. reflexivity.
Qed.

Lemma digits_length (s : str) : List.length (Spec.digits s) = List.length s.
Proof. unfold Spec.digits. apply length_map. Qed.

(** X11. The check digits are a function of the digits before them:
    two accepted CPFs whose first nine digits have the same values, and
    two accepted CNPJs whose first twelve have, agree in the value of
    every digit. *)
Theorem check_digits_determined :
  (forall a b : str,
      accepted a -> accepted b ->
      List.length (re_sub_nondigit a) = 11 ->
      List.length (re_sub_nondigit b) = 11 ->
      firstn 9 (Spec.digits (re_sub_nondigit a))
      = firstn 9 (Spec.digits (re_sub_nondigit b)) ->
      Spec.digits (re_sub_nondigit a) = Spec.digits (re_sub_nondigit b))
  /\ (forall a b : str,
      accepted a -> accepted b ->
      List.length (re_sub_nondigit a) = 14 ->
      List.length (re_sub_nondigit b) = 14 ->
      firstn 12 (Spec.digits (re_sub_nondigit a))
      = firstn 12 (Spec.digits (re_sub_nondigit b)) ->
      Spec.digits (re_sub_nondigit a) = Spec.digits (re_sub_nondigit b)).
Proof.
  split; intros a b Ha Hb La Lb Hbase.
  - destruct (accepted_len11 a La Ha) as [_ Ca].
    destruct (accepted_len11 b Lb Hb) as [_ Cb].
    apply (same_base_same_digits Spec.cpf_weights1 Spec.cpf_weights2
             _ _ 9); try reflexivity; try assumption;
      rewrite digits_length; assumption.
  - destruct (accepted_len14 a La Ha) as [_ Ca].
    destruct (accepted_len14 b Lb Hb) as [_ Cb].
    apply (same_base_same_digits Spec.cnpj_weights1 Spec.cnpj_weights2
             _ _ 12); try reflexivity; try assumption;
      rewrite digits_length; assumption.
Qed.

Lemma check_digits_determined_witness :
  Spec.digits (re_sub_nondigit (lit "111.444.777-35"))
  = Spec.digits (re_sub_nondigit (lit "11144477735")).
Proof.
  apply (proj1 check_digits_determined).
  - eexists. vm_compute. reflexivity.
  - eexists. vm_compute. reflexivity.
  - reflexivity.
  - reflexivity.
  - reflexivity.
Defined.

(** The digits of a base completed with its check digits satisfy both
    equations. *)
Lemma completed_base_checks (w1 w2 : list Z) (base : str) :
  List.length w1 = List.length base ->
  List.length w2 = S (List.length base) ->
  let d1 := Spec.check_digit w1 (Spec.digits base) in
  let d2 := Spec.check_digit w2 (Spec.digits base ++ [d1]) in
  let full := base ++ [Complete.digit_chr d1; Complete.digit_chr d2] in
  Forall (fun c => is_decimal c = true) base ->
  Forall (fun c => is_decimal c = true) full
  /\ Spec.digit_at (Spec.digits full) (List.length base)
     = Spec.check_digit w1 (Spec.digits full)
  /\ Spec.digit_at (Spec.digits full) (S (List.length base))
     = Spec.check_digit w2 (Spec.digits full).
Proof.
  intros L1 L2 d1 d2 full F.
  destruct (digit_chr_spec d1 (check_digit_range _ _)) as [D1 V1].
  destruct (digit_chr_spec d2 (check_digit_range _ _)) as [D2 V2].
  assert (List.length (Spec.digits base) = List.length base) as Lb
      by (unfold Spec.digits; apply length_map).
  assert (Spec.digits full = (Spec.digits base ++ [d1]) ++ [d2]) as E.
  { unfold full, Spec.digits. rewrite map_app. cbn [map].
    fold (Spec.digits base). rewrite V1, V2. rewrite <- app_assoc.
    reflexivity. }
  split; [|split].
  - unfold full. apply Forall_app. split; [exact F|].
    repeat constructor; assumption.
  - rewrite E. rewrite <- app_assoc. cbn [app].
    rewrite <- Lb at 1. rewrite digit_at_middle.
    rewrite check_digit_app by lia. reflexivity.
  - rewrite E.
    replace (S (List.length base))
      with (List.length (Spec.digits base ++ [d1]))
      by (rewrite length_app, Lb; simpl; lia).
    rewrite digit_at_middle.
    rewrite check_digit_app by (rewrite length_app, Lb; simpl; lia).
    reflexivity.
Qed.

(** X12. Every base of nine digits has a completion that the validator
    accepts: the base followed by its two check digits, unless that is
    one digit repeated; and so has every base of twelve digits.  The
    validator returns the completed number unchanged. *)
Theorem completed_base_accepted :
  (forall base : str,
      List.length base = 9 ->
      Forall (fun c => is_decimal c = true) base ->
      ~ Spec.single_repeated (Complete.cpf_of_base base) ->
      validate_tax_id (Complete.cpf_of_base base)
      = Ret (Complete.cpf_of_base base))
  /\ (forall base : str,
      List.length base = 12 ->
      Forall (fun c => is_decimal c = true) base ->
      ~ Spec.single_repeated (Complete.cnpj_of_base base) ->
      validate_tax_id (Complete.cnpj_of_base base)
      = Ret (Complete.cnpj_of_base base)).
Proof.
  split; intros base L F Hrep.
  - destruct (completed_base_checks Spec.cpf_weights1 Spec.cpf_weights2 base
                ltac:(rewrite L; reflexivity) ltac:(rewrite L; reflexivity) F)
      as (Ff & C1 & C2).
    fold (Complete.cpf_of_base base) in Ff, C1, C2. rewrite L in C1, C2.
    assert (List.length (Complete.cpf_of_base base) = 11) as Lf
        by (unfold Complete.cpf_of_base; rewrite length_app, L; reflexivity).
    pose proof (re_sub_nondigit_fixed _ Ff) as S.
    rewrite validate_tax_id_len11 by (rewrite S; exact Lf).
    cbv zeta. rewrite S.
    rewrite (not_repeated_head _ _ Lf Hrep). rewrite C1, C2.
    rewrite !Z.eqb_refl. reflexivity.
  - destruct (completed_base_checks Spec.cnpj_weights1 Spec.cnpj_weights2
                base ltac:(rewrite L; reflexivity)
                ltac:(rewrite L; reflexivity) F)
      as (Ff & C1 & C2).
    fold (Complete.cnpj_of_base base) in Ff, C1, C2. rewrite L in C1, C2.
    assert (List.length (Complete.cnpj_of_base base) = 14) as Lf
        by (unfold Complete.cnpj_of_base; rewrite length_app, L; reflexivity).
    pose proof (re_sub_nondigit_fixed _ Ff) as S.
    rewrite validate_tax_id_len14 by (rewrite S; exact Lf).
    cbv zeta. rewrite S.
    rewrite (not_repeated_head _ _ Lf Hrep). rewrite C1, C2.
    rewrite !Z.eqb_refl. reflexivity.
Qed.

Lemma completed_base_accepted_witness :
  validate_tax_id (Complete.cpf_of_base (lit "111444777"))
  = Ret (Complete.cpf_of_base (lit "111444777"))
  /\ Complete.cpf_of_base (lit "111444777") = lit "11144477735"
  /\ validate_tax_id (Complete.cnpj_of_base (lit "112223330001"))
     = Ret (Complete.cnpj_of_base (lit "112223330001"))
  /\ Complete.cnpj_of_base (lit "112223330001") = lit "11222333000181".
Proof.
  split; [|split; [|split]].
  - apply (proj1 completed_base_accepted (lit "111444777")).
    + reflexivity.
    + repeat constructor.
    + intros [c H]. vm_compute in H. congruence.
  - reflexivity.
  - apply (proj2 completed_base_accepted (lit "112223330001")).
    + reflexivity.
    + repeat constructor.
    + intros [c H]. vm_compute in H. congruence.
  - reflexivity.
Defined.

(* ================================================================== *)
(** ** Cleaners that strip white space *)

Lemma lstrip_app (s : str) :
  exists ws, Forall (fun c => is_space c = true) ws /\ s = ws ++ lstrip s.
Proof.
  induction s as [|c s (ws & F & E)].
  - exists []. split; [constructor | reflexivity].
  - cbn [lstrip]. destruct (is_space c) eqn:Hc.
    + exists (c :: ws). split; [constructor; assumption|].
      cbn [app]. f_equal. exact E.
    + exists []. split; [constructor | reflexivity].
Qed.

Lemma lstrip_head (s : str) (c : ascii) (t : str) :
  lstrip s = c :: t -> is_space c = false.
Proof.
  induction s as [|x s IH]; cbn [lstrip]; [discriminate|].
  destruct (is_space x) eqn:Hx; [exact IH|].
  intros H. injection H as <- _. exact Hx.
Qed.

Lemma lstrip_fixed (s : str) :
  (forall c, hd_error s = Some c -> is_space c = false) -> lstrip s = s.
Proof.
  destruct s as [|x s]; [reflexivity|]. intros H.
  cbn [lstrip]. rewrite (H x eq_refl). reflexivity.
Qed.

Lemma lstrip_idem (s : str) : lstrip (lstrip s) = lstrip s.
Proof.
  apply lstrip_fixed. intros c H.
  destruct (lstrip s) as [|x t] eqn:E; [discriminate H|].
  injection H as <-. exact (lstrip_head s x t E).
Qed.

Lemma lstrip_spaces (s : str) :
  Forall (fun c => is_space c = true) s -> lstrip s = [].
Proof.
  induction 1 as [|c s Hc _ IH]; cbn [lstrip]; [reflexivity|].
  rewrite Hc. exact IH.
Qed.

(** A stripped string starts with no white space. *)
Lemma strip_first (s : str) (c : ascii) :
  hd_error (strip s) = Some c -> is_space c = false.
Proof.
  unfold strip, rstrip. intros H.
  destruct (lstrip_app (rev (lstrip s))) as (ws & F & E).
  apply (f_equal (@rev ascii)) in E.
  rewrite rev_involutive, rev_app_distr in E.
  destruct (rev (lstrip (rev (lstrip s)))) as [|x t]; [discriminate H|].
  injection H as ->. cbn [app] in E.
  exact (lstrip_head s c _ E).
Qed.

(** A stripped string ends with no white space. *)
Lemma strip_last (s : str) (c : ascii) :
  hd_error (rev (strip s)) = Some c -> is_space c = false.
Proof.
  unfold strip, rstrip. rewrite rev_involutive. intros H.
  destruct (lstrip (rev (lstrip s))) as [|x t] eqn:E; [discriminate H|].
  injection H as ->. exact (lstrip_head _ c t E).
Qed.

(** A string with no white space at either end is its own strip. *)
Lemma strip_fixed (s : str) :
  (forall c, hd_error s = Some c -> is_space c = false) ->
  (forall c, hd_error (rev s) = Some c -> is_space c = false) ->
  strip s = s.
Proof.
  intros H1 H2. unfold strip, rstrip.
  rewrite (lstrip_fixed s H1), (lstrip_fixed (rev s) H2).
  apply rev_involutive.
Qed.

Lemma strip_idem (s : str) : strip (strip s) = strip s.
Proof. apply strip_fixed; [apply strip_first | apply strip_last]. Qed.

Lemma strip_spaces (s : str) :
  Forall (fun c => is_space c = true) s -> strip s = [].
Proof. intros F. unfold strip. rewrite (lstrip_spaces s F). reflexivity. Qed.

Lemma truthy_min (s : str) (n : nat) : (len s <? S n) = false -> truthy s = true.
Proof.
  destruct s; [|reflexivity]. intros H. apply Nat.ltb_ge in H.
  simpl in H. lia.
Qed.

(** X13. What the description cleaner of the financial form and the
    title cleaner of the appointment form accept from a non-empty input
    is the input stripped; it has between 3 and 200 characters and no
    white space at either end, and cleaning it again returns it. *)
Theorem bounded_text_cleaners :
  (forall raw v : str,
      raw <> [] ->
      FinanceiroFormFields.clean_descricao raw = Ret v ->
      v = strip raw
      /\ 3 <= List.length v <= 200
      /\ (forall c, hd_error v = Some c -> is_space c = false)
      /\ (forall c, hd_error (rev v) = Some c -> is_space c = false)
      /\ FinanceiroFormFields.clean_descricao v = Ret v)
  /\ (forall raw v : str,
      raw <> [] ->
      AgendaFormFields.clean_titulo raw = Ret v ->
      v = strip raw
      /\ 3 <= List.length v <= 200
      /\ (forall c, hd_error v = Some c -> is_space c = false)
      /\ (forall c, hd_error (rev v) = Some c -> is_space c = false)
      /\ AgendaFormFields.clean_titulo v = Ret v).
Proof.
  split; intros raw v Hraw H.
  - unfold FinanceiroFormFields.clean_descricao in *.
    destruct raw as [|c raw']; [congruence|]. cbn [truthy] in H.
    destruct (len (strip (c :: raw')) <? 3) eqn:E1; [discriminate H|].
    destruct (200 <? len (strip (c :: raw'))) eqn:E2; [discriminate H|].
    injection H as <-.
    rewrite (truthy_min _ 2 E1), strip_idem, E1, E2.
    apply Nat.ltb_ge in E1, E2. unfold len in *.
    repeat split; try lia; try apply strip_first; apply strip_last.
  - unfold AgendaFormFields.clean_titulo in *.
    destruct raw as [|c raw']; [congruence|]. cbn [truthy] in H.
    destruct (len (strip (c :: raw')) <? 3) eqn:E1; [discriminate H|].
    destruct (200 <? len (strip (c :: raw'))) eqn:E2; [discriminate H|].
    injection H as <-.
    rewrite (truthy_min _ 2 E1), strip_idem, E1, E2.
    apply Nat.ltb_ge in E1, E2. unfold len in *.
    repeat split; try lia; try apply strip_first; apply strip_last.
Qed.

Lemma bounded_text_cleaners_witness :
  lit "Honorarios" = strip (lit "  Honorarios ")
  /\ FinanceiroFormFields.clean_descricao (lit "Honorarios")
     = Ret (lit "Honorarios").
Proof.
  destruct (proj1 bounded_text_cleaners (lit "  Honorarios ")
              (lit "Honorarios") ltac:(discriminate) eq_refl)
    as (E & _ & _ & _ & I).
  split; [exact E | exact I].
Defined.

(** X14. An input of white space alone, unless empty, is rejected as
    too short by each of the five text cleaners, whereas the empty input
    is returned as it is. *)
Theorem blank_text_rejected :
  forall raw : str,
    raw <> [] ->
    Forall (fun c => is_space c = true) raw ->
    FinanceiroFormFields.clean_descricao raw
    = Invalid FinanceiroFormFields.Descricao_curta
    /\ AgendaFormFields.clean_titulo raw
       = Invalid AgendaFormFields.Titulo_curto
    /\ DocumentoFormFields.clean_nome raw
       = Invalid DocumentoFormFields.Nome_curto
    /\ NotificacaoForm.clean_titulo raw = Invalid NotificacaoForm.Titulo_curto
    /\ NotificacaoForm.clean_mensagem raw
       = Invalid NotificacaoForm.Mensagem_curta
    /\ FinanceiroFormFields.clean_descricao [] = Ret []
    /\ AgendaFormFields.clean_titulo [] = Ret []
    /\ DocumentoFormFields.clean_nome [] = Ret []
    /\ NotificacaoForm.clean_titulo [] = Ret []
    /\ NotificacaoForm.clean_mensagem [] = Ret [].
Proof.
  intros raw Hraw F.
  unfold FinanceiroFormFields.clean_descricao, AgendaFormFields.clean_titulo,
    DocumentoFormFields.clean_nome, NotificacaoForm.clean_titulo,
    NotificacaoForm.clean_mensagem.
  rewrite (strip_spaces raw F).
  destruct raw as [|c raw']; [congruence|].
  repeat split; reflexivity.
Qed.

Lemma blank_text_rejected_witness :
  FinanceiroFormFields.clean_descricao (lit "   ")
  = Invalid FinanceiroFormFields.Descricao_curta.
Proof.
  apply (blank_text_rejected (lit "   ")).
  - discriminate.
  - repeat constructor.
Defined.

(** X15. What the name cleaner of the document form and the title and
    message cleaners of the notification form accept from a non-empty
    input is the input stripped, of at least 3 (for the message 10)
    characters, and cleaning it again returns it. *)
Theorem unbounded_text_cleaners :
  (forall raw v : str,
      raw <> [] ->
      DocumentoFormFields.clean_nome raw = Ret v ->
      v = strip raw /\ 3 <= List.length v
      /\ DocumentoFormFields.clean_nome v = Ret v)
  /\ (forall raw v : str,
      raw <> [] ->
      NotificacaoForm.clean_titulo raw = Ret v ->
      v = strip raw /\ 3 <= List.length v
      /\ NotificacaoForm.clean_titulo v = Ret v)
  /\ (forall raw v : str,
      raw <> [] ->
      NotificacaoForm.clean_mensagem raw = Ret v ->
      v = strip raw /\ 10 <= List.length v
      /\ NotificacaoForm.clean_mensagem v = Ret v).
Proof.
  split; [|split]; intros raw v Hraw H.
  - unfold DocumentoFormFields.clean_nome in *.
    destruct raw as [|c raw']; [congruence|]. cbn [truthy] in H.
    destruct (len (strip (c :: raw')) <? 3) eqn:E1; [discriminate H|].
    injection H as <-.
    rewrite (truthy_min _ 2 E1), strip_idem, E1.
    apply Nat.ltb_ge in E1. unfold len in *.
    repeat split; lia.
  - unfold NotificacaoForm.clean_titulo in *.
    destruct raw as [|c raw']; [congruence|]. cbn [truthy] in H.
    destruct (len (strip (c :: raw')) <? 3) eqn:E1; [discriminate H|].
    injection H as <-.
    rewrite (truthy_min _ 2 E1), strip_idem, E1.
    apply Nat.ltb_ge in E1. unfold len in *.
    repeat split; lia.
  - unfold NotificacaoForm.clean_mensagem in *.
    destruct raw as [|c raw']; [congruence|]. cbn [truthy] in H.
    destruct (len (strip (c :: raw')) <? 10) eqn:E1; [discriminate H|].
    injection H as <-.
    rewrite (truthy_min _ 9 E1), strip_idem, E1.
    apply Nat.ltb_ge in E1. unfold len in *.
    repeat split; lia.
Qed.

Lemma unbounded_text_cleaners_witness :
  lit "Contrato social" = strip (lit " Contrato social  ")
  /\ DocumentoFormFields.clean_nome (lit "Contrato social")
     = Ret (lit "Contrato social").
Proof.
  destruct (proj1 unbounded_text_cleaners (lit " Contrato social  ")
              (lit "Contrato social") ltac:(discriminate) eq_refl)
    as (E & _ & I).
  split; [exact E | exact I].
Defined.

(* ================================================================== *)
(** ** Date windows *)

(** X16. With the clock at [hoje], a payment date is accepted exactly
    within the 1825 days up to [hoje], a due date exactly from 1825 days
    before to 3650 days after [hoje]; so every accepted payment date is
    also an accepted due date, and a due date may lie in the future
    where a payment date may not. *)
Theorem financial_date_windows :
  forall hoje d : date,
    clock_in_range hoje ->
    (FinanceiroFormFields.clean_data_pagamento hoje (Some d) = Ret (Some d)
     <-> (hoje - 1825 <= d <= hoje)%Z)
    /\ (FinanceiroFormFields.clean_data_vencimento hoje (Some d)
        = Ret (Some d)
        <-> (hoje - 1825 <= d <= hoje + 3650)%Z)
    /\ (FinanceiroFormFields.clean_data_pagamento hoje (Some d)
        = Ret (Some d) ->
        FinanceiroFormFields.clean_data_vencimento hoje (Some d)
        = Ret (Some d))
    /\ ((hoje < d)%Z ->
        FinanceiroFormFields.clean_data_pagamento hoje (Some d)
        = Invalid FinanceiroFormFields.Pagamento_futuro)
    /\ ((d < hoje - 1825)%Z ->
        FinanceiroFormFields.clean_data_pagamento hoje (Some d)
        = Invalid FinanceiroFormFields.Pagamento_passado
        /\ FinanceiroFormFields.clean_data_vencimento hoje (Some d)
           = Invalid FinanceiroFormFields.Vencimento_passado).
Proof.
  intros hoje d _.
  unfold FinanceiroFormFields.clean_data_pagamento,
    FinanceiroFormFields.clean_data_vencimento,
    date_minus_days, date_plus_days.
  destruct (Z.gtb_spec d hoje), (Z.ltb_spec d (hoje - 1825)),
    (Z.gtb_spec d (hoje + 3650));
    repeat split; intros; try discriminate; try reflexivity; lia.
Qed.

(** X17. With the clock at [hoje], a birth date is accepted exactly
    from 120 * 365 to 16 * 365 days before [hoje]; a later date is
    refused as in the future when it is after [hoje] and as under age
    otherwise, an earlier one as invalid. *)
Theorem birth_date_window :
  forall hoje d : date,
    clock_in_range hoje ->
    (PerfilUsuarioFormFields.clean_data_nascimento hoje (Some d)
     = Ret (Some d)
     <-> (hoje - 43800 <= d <= hoje - 5840)%Z)
    /\ ((hoje < d)%Z ->
        PerfilUsuarioFormFields.clean_data_nascimento hoje (Some d)
        = Invalid PerfilUsuarioFormFields.Nascimento_no_futuro)
    /\ ((hoje - 5840 < d <= hoje)%Z ->
        PerfilUsuarioFormFields.clean_data_nascimento hoje (Some d)
        = Invalid PerfilUsuarioFormFields.Idade_minima)
    /\ ((d < hoje - 43800)%Z ->
        PerfilUsuarioFormFields.clean_data_nascimento hoje (Some d)
        = Invalid PerfilUsuarioFormFields.Nascimento_invalido).
Proof.
  intros hoje d _.
  unfold PerfilUsuarioFormFields.clean_data_nascimento, date_minus_days.
  change (16 * 365)%Z with 5840%Z. change (120 * 365)%Z with 43800%Z.
  destruct (Z.gtb_spec d hoje), (Z.gtb_spec d (hoje - 5840)),
    (Z.ltb_spec d (hoje - 43800));
    repeat split; intros; try discriminate; try reflexivity; lia.
Qed.

Lemma financial_date_windows_witness :
  FinanceiroFormFields.clean_data_pagamento 739000%Z (Some 739001%Z)
  = Invalid FinanceiroFormFields.Pagamento_futuro.
Proof.
  apply (financial_date_windows 739000%Z 739001%Z).
  - unfold clock_in_range, date_min, date_max. lia.
  - lia.
Defined.

Lemma birth_date_window_witness :
  PerfilUsuarioFormFields.clean_data_nascimento 739000%Z (Some 735000%Z)
  = Invalid PerfilUsuarioFormFields.Idade_minima.
Proof.
  apply (birth_date_window 739000%Z 735000%Z).
  - unfold clock_in_range, date_min, date_max. lia.
  - lia.
Defined.

(* ================================================================== *)
(** ** Durations and balances *)

(** X18. The appointment form accepts a duration exactly from 1 to 1440
    minutes, which are also exactly the default durations that the
    appointment-type form accepts; and a notice exactly from 0 to 10080
    minutes. *)
Theorem duration_bounds :
  forall d : Z,
    (AgendaFormFields.clean_duracao (Some d) = Ret (Some d)
     <-> (1 <= d <= 1440)%Z)
    /\ (TipoCompromissoForm.clean_duracao_padrao (Some d) = Ret (Some d)
        <-> AgendaFormFields.clean_duracao (Some d) = Ret (Some d))
    /\ (AgendaFormFields.clean_notificar_antecedencia (Some d) = Ret (Some d)
        <-> (0 <= d <= 10080)%Z)
    /\ (AgendaFormFields.clean_duracao (Some d) = Ret (Some d) ->
        AgendaFormFields.clean_notificar_antecedencia (Some d)
        = Ret (Some d)).
Proof.
  intros d.
  unfold AgendaFormFields.clean_duracao,
    TipoCompromissoForm.clean_duracao_padrao,
    AgendaFormFields.clean_notificar_antecedencia.
  destruct (Z.ltb_spec d 1), (Z.gtb_spec d 1440), (Z.ltb_spec d 0),
    (Z.gtb_spec d 10080);
    repeat split; intros; try discriminate; try reflexivity; lia.
Qed.

Lemma duration_bounds_witness :
  AgendaFormFields.clean_notificar_antecedencia (Some 60%Z) = Ret (Some 60%Z).
Proof.
  apply (duration_bounds 60). reflexivity.
Defined.

Lemma saldo_accepted_iff (s : Q) :
  ContaBancariaForm.clean_saldo_inicial (Some s) = Ret (Some s)
  <-> (- valor_maximo <= s /\ s <= valor_maximo)%Q.
Proof.
  unfold ContaBancariaForm.clean_saldo_inicial.
  destruct (Qle_bool (- valor_maximo) s) eqn:E1;
    destruct (Qle_bool s valor_maximo) eqn:E2; cbn [negb orb].
  - apply Qle_bool_iff in E1, E2. split; [intros _; split; assumption|].
    reflexivity.
  - apply Qle_bool_false in E2. split; [discriminate|]. intros [_ L].
    exfalso. apply (Qlt_not_le _ _ E2 L).
  - apply Qle_bool_false in E1. split; [discriminate|]. intros [L _].
    exfalso. apply (Qlt_not_le _ _ E1 L).
  - apply Qle_bool_false in E1. split; [discriminate|]. intros [L _].
    exfalso. apply (Qlt_not_le _ _ E1 L).
Qed.

(** X19. An opening balance is accepted exactly within
    [-999999999.99, 999999999.99], both ends included; the check is
    symmetric, a balance being accepted exactly when its opposite is;
    and every amount that the financial form accepts as a value is an
    accepted balance. *)
Theorem opening_balance_bounds :
  forall s : Q,
    (ContaBancariaForm.clean_saldo_inicial (Some s) = Ret (Some s)
     <-> (- valor_maximo <= s /\ s <= valor_maximo)%Q)
    /\ (ContaBancariaForm.clean_saldo_inicial (Some s) = Ret (Some s)
        <-> ContaBancariaForm.clean_saldo_inicial (Some (- s)%Q)
            = Ret (Some (- s)%Q))
    /\ (FinanceiroForm.clean_valor (Some s) = Ret (Some s) ->
        ContaBancariaForm.clean_saldo_inicial (Some s) = Ret (Some s))
    /\ ((valor_maximo < s)%Q ->
        ContaBancariaForm.clean_saldo_inicial (Some s)
        = Invalid ContaBancariaForm.Saldo_fora_dos_limites).
Proof.
  intros s. split; [apply saldo_accepted_iff|split; [|split]].
  - rewrite !saldo_accepted_iff.
    split; intros [L1 L2]; split.
    + apply Qopp_le_compat in L2. exact L2.
    + apply Qopp_le_compat in L1. rewrite Qopp_involutive in L1. exact L1.
    + apply Qopp_le_compat in L2. rewrite Qopp_involutive in L2. exact L2.
    + apply Qopp_le_compat in L1. rewrite Qopp_involutive in L1. exact L1.
  - intros H. apply saldo_accepted_iff.
    unfold FinanceiroForm.clean_valor in H.
    destruct (Qle_bool s 0) eqn:E0; [discriminate H|].
    destruct (Qle_bool s valor_maximo) eqn:E1; [|discriminate H].
    apply Qle_bool_false in E0. apply Qle_bool_iff in E1.
    split; [|exact E1].
    apply Qle_trans with 0%Q; [discriminate | apply Qlt_le_weak; exact E0].
  - intros L. unfold ContaBancariaForm.clean_saldo_inicial.
    apply Qle_bool_false in L. rewrite L. rewrite orb_true_r. reflexivity.
Qed.

Lemma opening_balance_bounds_witness :
  ContaBancariaForm.clean_saldo_inicial (Some 1000000000%Q)
  = Invalid ContaBancariaForm.Saldo_fora_dos_limites.
Proof.
  apply (opening_balance_bounds 1000000000%Q). reflexivity.
Defined.

(* ================================================================== *)
(** ** The filter of the financial records *)

Lemma decimal_truthy_iff (q : Q) :
  FinanceiroFiltroForm.decimal_truthy (Some q) = true <-> ~ (q == 0)%Q.
Proof.
  unfold FinanceiroFiltroForm.decimal_truthy.
  rewrite negb_true_iff. rewrite <- Qeq_bool_iff.
  destruct (Qeq_bool q 0); split; congruence.
Qed.

Lemma decimal_falsy_iff (q : Q) :
  FinanceiroFiltroForm.decimal_truthy (Some q) = false <-> (q == 0)%Q.
Proof.
  unfold FinanceiroFiltroForm.decimal_truthy.
  rewrite negb_false_iff. apply Qeq_bool_iff.
Qed.

(** X20. The filter of the financial records is accepted exactly when
    the start date, if both dates are given, is not after the end date,
    and the minimum, if both values are given and neither is zero, does
    not exceed the maximum.  The dates are checked first.  So the range
    of values is checked only when neither bound is zero: a zero minimum
    or a zero maximum lets any other bound through, also a minimum above
    the maximum. *)
Theorem filter_value_range :
  forall cd : FinanceiroFiltroForm.cleaned_data,
    let dates_ok :=
      forall i f, FinanceiroFiltroForm.data_inicio cd = Some i ->
                  FinanceiroFiltroForm.data_fim cd = Some f -> (i <= f)%Z in
    let values_ok :=
      forall lo hi, FinanceiroFiltroForm.valor_min cd = Some lo ->
                    FinanceiroFiltroForm.valor_max cd = Some hi ->
                    ~ (lo == 0)%Q -> ~ (hi == 0)%Q -> (lo <= hi)%Q in
    (FinanceiroFiltroForm.clean cd = Ret cd <-> dates_ok /\ values_ok)
    /\ (~ dates_ok ->
        FinanceiroFiltroForm.clean cd
        = Invalid FinanceiroFiltroForm.Inicio_posterior_ao_fim)
    /\ (dates_ok -> ~ values_ok ->
        FinanceiroFiltroForm.clean cd
        = Invalid FinanceiroFiltroForm.Minimo_maior_que_maximo)
    /\ (dates_ok ->
        (exists lo, FinanceiroFiltroForm.valor_min cd = Some lo
                    /\ (lo == 0)%Q)
        \/ (exists hi, FinanceiroFiltroForm.valor_max cd = Some hi
                       /\ (hi == 0)%Q) ->
        FinanceiroFiltroForm.clean cd = Ret cd).
Proof.
  intros [di df vmin vmax]. cbv zeta. unfold FinanceiroFiltroForm.clean.
  cbn [FinanceiroFiltroForm.data_inicio FinanceiroFiltroForm.data_fim
       FinanceiroFiltroForm.valor_min FinanceiroFiltroForm.valor_max].
  set (dates_ok := forall i f, di = Some i -> df = Some f -> (i <= f)%Z).
  set (values_ok := forall lo hi, vmin = Some lo -> vmax = Some hi ->
                                  ~ (lo == 0)%Q -> ~ (hi == 0)%Q ->
                                  (lo <= hi)%Q).
  assert ((match di, df with
           | Some i, Some f => (i >? f)%Z
           | _, _ => false
           end) = false <-> dates_ok) as Hd.
  { unfold dates_ok. destruct di as [i|], df as [f|];
      try (split; [intros _ ? ? ? ?; discriminate | reflexivity]).
    destruct (Z.gtb_spec i f) as [G|G]; split; intros K.
    - discriminate K.
    - specialize (K i f eq_refl eq_refl). lia.
    - intros ? ? [= <-] [= <-]. lia.
    - reflexivity. }
  destruct (match di, df with
            | Some i, Some f => (i >? f)%Z
            | _, _ => false
            end).
  { assert (~ dates_ok) as Nd by (intros D; apply Hd in D; discriminate D).
    repeat split; intros; try discriminate; try tauto. }
  assert dates_ok as D by (apply Hd; reflexivity). clear Hd.
  assert (match vmin, vmax with
          | Some lo, Some hi =>
              FinanceiroFiltroForm.decimal_truthy vmin
              && FinanceiroFiltroForm.decimal_truthy vmax
              && negb (Qle_bool lo hi)
          | _, _ => false
          end = false <-> values_ok) as Hv.
  { unfold values_ok. destruct vmin as [lo|], vmax as [hi|];
      try (split; [intros _ ? ? ? ?; discriminate | reflexivity]).
    destruct (FinanceiroFiltroForm.decimal_truthy (Some lo)) eqn:E1;
      [apply decimal_truthy_iff in E1 | apply decimal_falsy_iff in E1];
      (destruct (FinanceiroFiltroForm.decimal_truthy (Some hi)) eqn:E2;
       [apply decimal_truthy_iff in E2 | apply decimal_falsy_iff in E2]);
      cbn [andb].
    - destruct (Qle_bool lo hi) eqn:E3; cbn [negb].
      + apply Qle_bool_iff in E3.
        split; [intros _ ? ? [= <-] [= <-] _ _; exact E3 | reflexivity].
      + apply Qle_bool_false in E3. split; [discriminate|]. intros H.
        exfalso. apply (Qlt_not_le _ _ E3). apply (H lo hi); auto.
    - split; [|reflexivity]. intros _ ? ? [= <-] [= <-] _ N. contradiction.
    - split; [|reflexivity]. intros _ ? ? [= <-] [= <-] N _. contradiction.
    - split; [|reflexivity]. intros _ ? ? [= <-] [= <-] N _. contradiction. }
  assert (forall b : bool,
             b = match vmin, vmax with
                 | Some lo, Some hi =>
                     FinanceiroFiltroForm.decimal_truthy vmin
                     && FinanceiroFiltroForm.decimal_truthy vmax
                     && negb (Qle_bool lo hi)
                 | _, _ => false
                 end ->
             match vmin, vmax with
             | Some lo, Some hi =>
                 if FinanceiroFiltroForm.decimal_truthy vmin
                    && FinanceiroFiltroForm.decimal_truthy vmax
                    && negb (Qle_bool lo hi)
                 then Invalid FinanceiroFiltroForm.Minimo_maior_que_maximo
                 else Ret {| FinanceiroFiltroForm.data_inicio := di;
                             FinanceiroFiltroForm.data_fim := df;
                             FinanceiroFiltroForm.valor_min := vmin;
                             FinanceiroFiltroForm.valor_max := vmax |}
             | _, _ => Ret {| FinanceiroFiltroForm.data_inicio := di;
                              FinanceiroFiltroForm.data_fim := df;
                              FinanceiroFiltroForm.valor_min := vmin;
                              FinanceiroFiltroForm.valor_max := vmax |}
             end
             = if b
               then Invalid FinanceiroFiltroForm.Minimo_maior_que_maximo
               else Ret {| FinanceiroFiltroForm.data_inicio := di;
                           FinanceiroFiltroForm.data_fim := df;
                           FinanceiroFiltroForm.valor_min := vmin;
                           FinanceiroFiltroForm.valor_max := vmax |}) as Hc.
  { intros b ->. destruct vmin, vmax; reflexivity. }
  rewrite (Hc _ eq_refl). clear Hc.
  destruct (match vmin, vmax with
            | Some lo, Some hi =>
                FinanceiroFiltroForm.decimal_truthy vmin
                && FinanceiroFiltroForm.decimal_truthy vmax
                && negb (Qle_bool lo hi)
            | _, _ => false
            end).
  - assert (~ values_ok) as Nv by (intros V; apply Hv in V; discriminate V).
    split; [|split; [|split]].
    + split; [discriminate | intros [_ V]; contradiction].
    + intros Nd. contradiction.
    + reflexivity.
    + intros _ [(lo & -> & Z0)|(hi & -> & Z0)]; exfalso; apply Nv;
        intros lo' hi' El Eh N1 N2.
      * injection El as <-. contradiction.
      * injection Eh as <-. contradiction.
  - assert values_ok as V by (apply Hv; reflexivity).
    split; [|split; [|split]].
    + split; [intros _; split; assumption | reflexivity].
    + intros Nd. contradiction.
    + intros _ Nv. contradiction.
    + reflexivity.
Qed.

Lemma filter_value_range_witness :
  let cd := {| FinanceiroFiltroForm.data_inicio := Some 738000%Z;
               FinanceiroFiltroForm.data_fim := Some 739000%Z;
               FinanceiroFiltroForm.valor_min := Some 0%Q;
               FinanceiroFiltroForm.valor_max := Some (-5)%Q |} in
  let bad := {| FinanceiroFiltroForm.data_inicio := Some 738000%Z;
                FinanceiroFiltroForm.data_fim := Some 739000%Z;
                FinanceiroFiltroForm.valor_min := Some 5%Q;
                FinanceiroFiltroForm.valor_max := Some 3%Q |} in
  FinanceiroFiltroForm.clean cd = Ret cd
  /\ FinanceiroFiltroForm.clean bad
     = Invalid FinanceiroFiltroForm.Minimo_maior_que_maximo.
Proof.
  cbv zeta. split.
  - apply filter_value_range.
    + intros i f [= <-] [= <-]. lia.
    + left. eexists. split; reflexivity.
  - apply filter_value_range.
    + intros i f [= <-] [= <-]. lia.
    + intros V.
      specialize (V 5%Q 3%Q eq_refl eq_refl
                    ltac:(discriminate) ltac:(discriminate)).
      apply (Qlt_not_le 3 5); [reflexivity | exact V].
Defined.

(* ================================================================== *)
(** ** The form-level checks, complete *)

(** The client of the case is the supplied client, whenever both are
    supplied. *)
Lemma link_ok_iff (p : option Processo) (c : option Cliente) :
  match p, c with
  | Some p', Some c' => cliente_ne (Models.cliente p') c' = false
  | _, _ => True
  end
  <-> (forall p' c', p = Some p' -> c = Some c' ->
                     cliente_pk (Models.cliente p') = cliente_pk c').
Proof.
  destruct p as [p'|], c as [c'|]; split; intros H;
    try exact I; try (intros ? ? ? ?; discriminate).
  - intros ? ? [= <-] [= <-]. apply cliente_ne_false. exact H.
  - apply cliente_ne_false. apply H; reflexivity.
Qed.

(** X21. The financial form accepts exactly the submissions in which
    the status is 'pago' if and only if a payment date is supplied, a
    case or a client is supplied, and, when both are, the client of the
    case is the supplied client; what it accepts it returns unchanged. *)
Theorem financial_clean_accepts :
  forall cd : FinanceiroForm.cleaned_data,
    ((exists r, FinanceiroForm.clean cd = Ret r)
     <-> ((FinanceiroForm.status cd = Some (lit "pago")
           <-> FinanceiroForm.data_pagamento cd <> None)
          /\ (FinanceiroForm.processo cd <> None
              \/ FinanceiroForm.cliente cd <> None)
          /\ (forall p c,
                 FinanceiroForm.processo cd = Some p ->
                 FinanceiroForm.cliente cd = Some c ->
                 cliente_pk (Models.cliente p) = cliente_pk c)))
    /\ (forall r, FinanceiroForm.clean cd = Ret r -> r = cd).
Proof.
  intros cd. rewrite <- is_pago_iff, <- !present_iff, <- link_ok_iff.
  unfold FinanceiroForm.clean.
  destruct (FinanceiroForm.is_pago (FinanceiroForm.status cd));
    destruct (FinanceiroForm.data_pagamento cd) as [d|];
    destruct (FinanceiroForm.processo cd) as [p|];
    destruct (FinanceiroForm.cliente cd) as [c|];
    cbn [present andb negb];
    try destruct (cliente_ne (Models.cliente p) c);
    (split; [split|]);
    try (intros [r Hr]; discriminate Hr);
    try (intros r Hr; (discriminate Hr || (injection Hr as <-; reflexivity)));
    try (intros _; eexists; reflexivity);
    try (intros _; repeat split; auto; intros; discriminate);
    try (intros (Hs & Hp & Hl); exfalso;
         (discriminate Hl
          || (destruct Hs as [Hs1 Hs2]; (discriminate (Hs1 eq_refl)
                                         || discriminate (Hs2 eq_refl)))
          || (destruct Hp as [Hp|Hp]; discriminate Hp))).
Qed.

Lemma financial_clean_accepts_witness :
  let c := {| cliente_pk := 1; cpf_cnpj := lit "11144477735" |} in
  let cd := {| FinanceiroForm.status := Some (lit "pendente");
               FinanceiroForm.data_pagamento := None;
               FinanceiroForm.processo := None;
               FinanceiroForm.cliente := Some c |} in
  exists r, FinanceiroForm.clean cd = Ret r.
Proof.
  cbv zeta. apply financial_clean_accepts. split; [|split].
  - split; [discriminate | intros H; exfalso; apply H; reflexivity].
  - right. discriminate.
  - intros p c' H. discriminate H.
Defined.

(** X22. The document and the appointment form accept exactly the
    submissions with a case or a client whose link, when both are given,
    is consistent.  The upload form makes the first check only: it
    accepts whatever the document form accepts, and besides exactly the
    submissions whose case belongs to another client than the supplied
    one. *)
Theorem link_forms_accept :
  forall (p : option Processo) (c : option Cliente),
    let cd := {| DocumentoForm.processo := p; DocumentoForm.cliente := c |} in
    let ag := {| AgendaForm.processo := p; AgendaForm.cliente := c |} in
    (DocumentoForm.clean cd = Ret cd
     <-> ((p <> None \/ c <> None)
          /\ (forall p' c', p = Some p' -> c = Some c' ->
                            cliente_pk (Models.cliente p') = cliente_pk c')))
    /\ (AgendaForm.clean ag = Ret ag <-> DocumentoForm.clean cd = Ret cd)
    /\ (DocumentoUploadForm.clean cd = Ret cd <-> (p <> None \/ c <> None))
    /\ (DocumentoForm.clean cd = Ret cd -> DocumentoUploadForm.clean cd = Ret cd)
    /\ ((DocumentoUploadForm.clean cd = Ret cd
         /\ DocumentoForm.clean cd
            = Invalid DocumentoForm.Cliente_nao_corresponde)
        <-> (exists p' c', p = Some p' /\ c = Some c'
                           /\ cliente_pk (Models.cliente p') <> cliente_pk c')).
Proof.
  intros p c cd ag. subst cd ag.
  rewrite <- link_ok_iff, <- !present_iff.
  unfold DocumentoForm.clean, AgendaForm.clean, DocumentoUploadForm.clean.
  cbn [DocumentoForm.processo DocumentoForm.cliente
       AgendaForm.processo AgendaForm.cliente].
  destruct p as [p'|], c as [c'|]; cbn [present andb negb];
    try destruct (cliente_ne (Models.cliente p') c') eqn:E;
    repeat split; intros;
    try discriminate; try reflexivity; auto;
    repeat match goal with
           | H : _ /\ _ |- _ => destruct H
           | H : _ \/ _ |- _ => destruct H
           | H : exists _, _ |- _ => destruct H
           end;
    try discriminate; try congruence.
  - exists p', c'. repeat split. apply cliente_ne_true. exact E.
  - match goal with
    | H1 : Some _ = Some _, H2 : Some _ = Some _ |- _ =>
        injection H1 as <-; injection H2 as <-
    end.
    apply cliente_ne_false in E. contradiction.
Qed.

Lemma link_forms_accept_witness :
  let a := {| cliente_pk := 1; cpf_cnpj := lit "11144477735" |} in
  let b := {| cliente_pk := 2; cpf_cnpj := lit "11222333000181" |} in
  let p := {| processo_pk := 7; Models.cliente := a |} in
  let cd := {| DocumentoForm.processo := Some p;
               DocumentoForm.cliente := Some b |} in
  DocumentoUploadForm.clean cd = Ret cd
  /\ DocumentoForm.clean cd = Invalid DocumentoForm.Cliente_nao_corresponde.
Proof.
  cbv zeta.
  apply (proj2 (proj2 (proj2 (proj2 (link_forms_accept _ _))))).
  eexists. eexists. repeat split. discriminate.
Defined.
